(** * task-queue-go: the task state machine, retry policy, queue, scheduler,
      dead letter queue and worker pool, embedded from the Go sources.

    Conventions of the embedding.
    - Go [int] and [time.Duration] are 64-bit integers, modelled in [Z]; the
      only arithmetic on them in the modelled code is [Attempts++], whose
      wrap-around is written out ([int_incr]).
    - [time.Time] is a [Z] (nanoseconds since the epoch, UTC); a [*time.Time]
      is an [option Time], [nil] being [None].
    - A Go [error] result is an [option error], [nil] being [None].
    - A method that mutates its receiver [*Task] is a function that returns
      the task as it is after the call, also when it returns an error.
    - Every [time.Now()] of a function is an argument of the function, in
      program order.
    - [float64] is binary64, Rocq's primitive floats.  [math.Pow] and the
      conversion of a float that no integer holds are not the repository's
      code: they are the fields of a [Runtime], an argument of the functions
      that reach them. *)

From Stdlib Require Import ZArith List String Bool Lia.
From Stdlib Require Import Uint63 Floats.
Import ListNotations.

Local Open Scope string_scope.
Local Open Scope list_scope.
Local Open Scope Z_scope.

(* ================================================================= *)
(** ** Basic types *)

Definition Time := Z.
Definition Duration := Z.

Definition Nanosecond : Duration := 1.
Definition Second : Duration := 1000000000.
Definition Minute : Duration := 60 * Second.
Definition Hour : Duration := 60 * Minute.

(** Go [int] on the 64-bit targets of the project. *)
Definition wrap64 (z : Z) : Z := (z + 2 ^ 63) mod 2 ^ 64 - 2 ^ 63.
Definition int_incr (z : Z) : Z := wrap64 (z + 1).

(** An opaque JSON object ([map[string]interface{}]); [None] is the nil map. *)
Definition JSONObject := option (list (string * string)).

(* ================================================================= *)
(** ** internal/task: task.go *)

Definition Priority := Z.
Definition PriorityLow : Priority := 0.
Definition PriorityNormal : Priority := 1.
Definition PriorityHigh : Priority := 2.
Definition PriorityCritical : Priority := 3.

Definition Priority_String (p : Priority) : string :=
  if p =? PriorityLow then "low"
  else if p =? PriorityNormal then "normal"
  else if p =? PriorityHigh then "high"
  else if p =? PriorityCritical then "critical"
  else "unknown".

Definition StreamName (p : Priority) (prefix : string) : string :=
  prefix ++ ":" ++ Priority_String p.

Definition ParsePriority (s : string) : Priority :=
  if String.eqb s "low" then PriorityLow
  else if String.eqb s "normal" then PriorityNormal
  else if String.eqb s "high" then PriorityHigh
  else if String.eqb s "critical" then PriorityCritical
  else PriorityNormal.

Definition PriorityFromInt (i : Z) : Priority :=
  if (i <? 0) || (i >? 3) then PriorityNormal else i.

(* ----------------------------------------------------------------- *)
(** *** state.go: states *)

Definition State := Z.
Definition StatePending : State := 0.
Definition StateScheduled : State := 1.
Definition StateRunning : State := 2.
Definition StateCompleted : State := 3.
Definition StateFailed : State := 4.
Definition StateRetrying : State := 5.
Definition StateCancelled : State := 6.
Definition StateDeadLetter : State := 7.

Definition State_String (s : State) : string :=
  if s =? StatePending then "pending"
  else if s =? StateScheduled then "scheduled"
  else if s =? StateRunning then "running"
  else if s =? StateCompleted then "completed"
  else if s =? StateFailed then "failed"
  else if s =? StateRetrying then "retrying"
  else if s =? StateCancelled then "cancelled"
  else if s =? StateDeadLetter then "dead_letter"
  else "unknown".

Definition ParseState (s : string) : State :=
  if String.eqb s "pending" then StatePending
  else if String.eqb s "scheduled" then StateScheduled
  else if String.eqb s "running" then StateRunning
  else if String.eqb s "completed" then StateCompleted
  else if String.eqb s "failed" then StateFailed
  else if String.eqb s "retrying" then StateRetrying
  else if String.eqb s "cancelled" then StateCancelled
  else if String.eqb s "dead_letter" then StateDeadLetter
  else StatePending.

Definition IsFinal (s : State) : bool :=
  (s =? StateCompleted) || (s =? StateFailed) || (s =? StateCancelled)
  || (s =? StateDeadLetter).

Definition IsActive (s : State) : bool :=
  (s =? StateRunning) || (s =? StateRetrying).

Inductive error : Type :=
| ErrInvalidTransition
| ErrInvalidTaskData
| ErrTaskNotFound
| ErrTaskAlreadyExists
| ErrStore (msg : string)                  (* an error of the redis client *)
| ErrUnmarshal                             (* an error of encoding/json *)
| Errorf (context : string) (cause : error).  (* fmt.Errorf("...: %w", err) *)

(** The map literal [ValidTransitions], entry by entry. *)
Definition ValidTransitions : list (State * list State) :=
  [ (StatePending,    [StateScheduled; StateRunning; StateCancelled]);
    (StateScheduled,  [StatePending; StateRunning; StateCancelled]);
    (StateRunning,    [StateCompleted; StateFailed; StateRetrying; StateCancelled]);
    (StateRetrying,   [StateRunning; StateFailed; StateDeadLetter; StateCancelled]);
    (StateFailed,     [StateRetrying; StateDeadLetter; StatePending]);
    (StateCompleted,  []);
    (StateCancelled,  []);
    (StateDeadLetter, [StatePending]) ].

(** [m[k]] with the comma-ok result. *)
Fixpoint map_lookup {V : Type} (m : list (Z * V)) (k : Z) : option V :=
  match m with
  | [] => None
  | (k', v) :: m' => if k' =? k then Some v else map_lookup m' k
  end.

(** The [for _, v := range validTargets] loop with its early return. *)
Fixpoint range_contains (validTargets : list State) (target : State) : bool :=
  match validTargets with
  | [] => false
  | v :: rest => if v =? target then true else range_contains rest target
  end.

Definition CanTransitionTo (s target : State) : bool :=
  match map_lookup ValidTransitions s with
  | None => false
  | Some validTargets => range_contains validTargets target
  end.

(* ----------------------------------------------------------------- *)
(** *** task.go: the Task record *)

Record Task : Type := mkTask {
  ID : string;
  Type_ : string;
  Payload : JSONObject;
  Priority_ : Priority;
  State_ : State;
  Attempts : Z;
  MaxRetries : Z;
  Error : string;
  Result : JSONObject;
  WorkerID : string;
  CreatedAt : Time;
  UpdatedAt : Time;
  StartedAt : option Time;
  CompletedAt : option Time;
  ScheduledAt : option Time;
  Timeout : Duration;
  Metadata : option (list (string * string))
}.

(** Field assignments [t.F = v]. *)
Definition set_State (v : State) (t : Task) : Task :=
  mkTask (ID t) (Type_ t) (Payload t) (Priority_ t) v (Attempts t)
    (MaxRetries t) (Error t) (Result t) (WorkerID t) (CreatedAt t)
    (UpdatedAt t) (StartedAt t) (CompletedAt t) (ScheduledAt t) (Timeout t)
    (Metadata t).

Definition set_Attempts (v : Z) (t : Task) : Task :=
  mkTask (ID t) (Type_ t) (Payload t) (Priority_ t) (State_ t) v
    (MaxRetries t) (Error t) (Result t) (WorkerID t) (CreatedAt t)
    (UpdatedAt t) (StartedAt t) (CompletedAt t) (ScheduledAt t) (Timeout t)
    (Metadata t).

Definition set_MaxRetries (v : Z) (t : Task) : Task :=
  mkTask (ID t) (Type_ t) (Payload t) (Priority_ t) (State_ t) (Attempts t)
    v (Error t) (Result t) (WorkerID t) (CreatedAt t)
    (UpdatedAt t) (StartedAt t) (CompletedAt t) (ScheduledAt t) (Timeout t)
    (Metadata t).

Definition set_Error (v : string) (t : Task) : Task :=
  mkTask (ID t) (Type_ t) (Payload t) (Priority_ t) (State_ t) (Attempts t)
    (MaxRetries t) v (Result t) (WorkerID t) (CreatedAt t)
    (UpdatedAt t) (StartedAt t) (CompletedAt t) (ScheduledAt t) (Timeout t)
    (Metadata t).

Definition set_Result (v : JSONObject) (t : Task) : Task :=
  mkTask (ID t) (Type_ t) (Payload t) (Priority_ t) (State_ t) (Attempts t)
    (MaxRetries t) (Error t) v (WorkerID t) (CreatedAt t)
    (UpdatedAt t) (StartedAt t) (CompletedAt t) (ScheduledAt t) (Timeout t)
    (Metadata t).

Definition set_WorkerID (v : string) (t : Task) : Task :=
  mkTask (ID t) (Type_ t) (Payload t) (Priority_ t) (State_ t) (Attempts t)
    (MaxRetries t) (Error t) (Result t) v (CreatedAt t)
    (UpdatedAt t) (StartedAt t) (CompletedAt t) (ScheduledAt t) (Timeout t)
    (Metadata t).

Definition set_UpdatedAt (v : Time) (t : Task) : Task :=
  mkTask (ID t) (Type_ t) (Payload t) (Priority_ t) (State_ t) (Attempts t)
    (MaxRetries t) (Error t) (Result t) (WorkerID t) (CreatedAt t)
    v (StartedAt t) (CompletedAt t) (ScheduledAt t) (Timeout t)
    (Metadata t).

Definition set_StartedAt (v : option Time) (t : Task) : Task :=
  mkTask (ID t) (Type_ t) (Payload t) (Priority_ t) (State_ t) (Attempts t)
    (MaxRetries t) (Error t) (Result t) (WorkerID t) (CreatedAt t)
    (UpdatedAt t) v (CompletedAt t) (ScheduledAt t) (Timeout t)
    (Metadata t).

Definition set_CompletedAt (v : option Time) (t : Task) : Task :=
  mkTask (ID t) (Type_ t) (Payload t) (Priority_ t) (State_ t) (Attempts t)
    (MaxRetries t) (Error t) (Result t) (WorkerID t) (CreatedAt t)
    (UpdatedAt t) (StartedAt t) v (ScheduledAt t) (Timeout t)
    (Metadata t).

Definition set_ScheduledAt (v : option Time) (t : Task) : Task :=
  mkTask (ID t) (Type_ t) (Payload t) (Priority_ t) (State_ t) (Attempts t)
    (MaxRetries t) (Error t) (Result t) (WorkerID t) (CreatedAt t)
    (UpdatedAt t) (StartedAt t) (CompletedAt t) v (Timeout t)
    (Metadata t).

Definition set_Timeout (v : Duration) (t : Task) : Task :=
  mkTask (ID t) (Type_ t) (Payload t) (Priority_ t) (State_ t) (Attempts t)
    (MaxRetries t) (Error t) (Result t) (WorkerID t) (CreatedAt t)
    (UpdatedAt t) (StartedAt t) (CompletedAt t) (ScheduledAt t) v
    (Metadata t).

Definition set_Metadata (v : option (list (string * string))) (t : Task) : Task :=
  mkTask (ID t) (Type_ t) (Payload t) (Priority_ t) (State_ t) (Attempts t)
    (MaxRetries t) (Error t) (Result t) (WorkerID t) (CreatedAt t)
    (UpdatedAt t) (StartedAt t) (CompletedAt t) (ScheduledAt t) (Timeout t)
    v.

Record CreateTaskRequest : Type := mkCreateTaskRequest {
  ReqType : string;
  ReqPayload : JSONObject;
  ReqPriority : Z;
  ReqMaxRetries : Z;
  ReqTimeout : Z;                      (* in seconds *)
  ReqScheduledAt : option Time;
  ReqMetadata : option (list (string * string))
}.

(** [New]; [uuid] is the string of the fresh [uuid.New()], [now] the clock. *)
Definition New (uuid : string) (now : Time) (taskType : string)
    (payload : JSONObject) (priority : Priority) : Task :=
  {| ID := uuid;
     Type_ := taskType;
     Payload := payload;
     Priority_ := priority;
     State_ := StatePending;
     Attempts := 0;
     MaxRetries := 3;
     Error := "";
     Result := None;
     WorkerID := "";
     CreatedAt := now;
     UpdatedAt := now;
     StartedAt := None;
     CompletedAt := None;
     ScheduledAt := None;
     Timeout := 5 * Minute;
     Metadata := Some [] |}.

Definition FromRequest (uuid : string) (now : Time) (req : CreateTaskRequest)
    : Task :=
  let task :=
    New uuid now (ReqType req) (ReqPayload req) (PriorityFromInt (ReqPriority req)) in
  let task :=
    if ReqMaxRetries req >? 0 then set_MaxRetries (ReqMaxRetries req) task
    else task in
  let task :=
    if ReqTimeout req >? 0 then set_Timeout (wrap64 (ReqTimeout req * Second)) task
    else task in
  let task :=
    match ReqScheduledAt req with
    | Some at_ => set_ScheduledAt (Some at_) task
    | None => task
    end in
  let task :=
    match ReqMetadata req with
    | Some md => set_Metadata (Some md) task
    | None => task
    end in
  task.

Definition CanRetry (t : Task) : bool := Attempts t <? MaxRetries t.

Definition IncrementAttempts (now : Time) (t : Task) : Task :=
  set_UpdatedAt now (set_Attempts (int_incr (Attempts t)) t).

(* ----------------------------------------------------------------- *)
(** *** state.go: the state machine *)

Module StateMachine.

Definition Transition (now : Time) (target : State) (t : Task)
    : Task * option error :=
  if negb (CanTransitionTo (State_ t) target) then (t, Some ErrInvalidTransition)
  else
    let t := set_State target t in
    let t := set_UpdatedAt now t in
    let t :=
      if target =? StateRunning then set_StartedAt (Some now) t
      else if (target =? StateCompleted) || (target =? StateFailed)
              || (target =? StateCancelled) || (target =? StateDeadLetter)
           then set_CompletedAt (Some now) t
      else t in
    (t, None).

(** [now'] is the clock read by [IncrementAttempts]. *)
Definition Start (now now' : Time) (workerID : string) (t : Task)
    : Task * option error :=
  match Transition now StateRunning t with
  | (t, Some err) => (t, Some err)
  | (t, None) =>
      let t := set_WorkerID workerID t in
      let t := IncrementAttempts now' t in
      (t, None)
  end.

Definition Complete (now : Time) (result : JSONObject) (t : Task)
    : Task * option error :=
  match Transition now StateCompleted t with
  | (t, Some err) => (t, Some err)
  | (t, None) =>
      let t := set_Result result t in
      let t := set_Error "" t in
      (t, None)
  end.

Definition Fail (now : Time) (errMsg : string) (t : Task)
    : Task * option error :=
  match Transition now StateFailed t with
  | (t, Some err) => (t, Some err)
  | (t, None) => (set_Error errMsg t, None)
  end.

Definition Retry (now : Time) (t : Task) : Task * option error :=
  if negb (CanRetry t) then Transition now StateDeadLetter t
  else Transition now StateRetrying t.

Definition Cancel (now : Time) (t : Task) : Task * option error :=
  Transition now StateCancelled t.

Definition MoveToDLQ (now : Time) (t : Task) : Task * option error :=
  Transition now StateDeadLetter t.

Definition Requeue (now : Time) (t : Task) : Task * option error :=
  let t := set_WorkerID "" t in
  let t := set_Attempts 0 t in
  let t := set_Error "" t in
  let t := set_StartedAt None t in
  let t := set_CompletedAt None t in
  Transition now StatePending t.

End StateMachine.

(* ================================================================= *)
(** ** internal/task: retry.go

    [float64] is IEEE 754 binary64: Rocq's primitive floats, whose
    operations round to the nearest value, ties to even.  The operations are
    rounded one at a time, as the compiler emits them for amd64; a port that
    fuses a multiplication with the addition that follows may differ in the
    last bit of the sum of backoff and jitter. *)

Definition float64 := PrimFloat.float.

(** [float64(x)] for a 64-bit integer [x]: the nearest float, ties to even.
    [Uint63] holds 63 bits, so the sign is converted apart, and so is the
    one magnitude of 64 bits, 2^63. *)
Definition float64_of_int (z : Z) : float64 :=
  if z <? 0 then
    if z =? - 2 ^ 63 then (- Z.ldexp 1 63)%float
    else (- of_uint63 (Uint63.of_Z (- z)))%float
  else of_uint63 (Uint63.of_Z z).

(** [int64(x)] where the language defines it: the integer part of a finite
    [x] (the fraction is dropped), when it is a 64-bit integer.  For the
    other values, NaN and the infinities among them, the conversion yields a
    value that depends on the implementation. *)
Definition int64_of_float64 (x : float64) : option Z :=
  match Prim2SF x with
  | S754_zero _ => Some 0
  | S754_finite s m e =>
      let v := Z.shiftl (Zpos m) e in
      let v := if s then - v else v in
      if (- 2 ^ 63 <=? v) && (v <? 2 ^ 63) then Some v else None
  | S754_infinity _ | S754_nan => None
  end.

(** What the code takes from outside the repository: [math.Pow] of Go's
    library, and what the implementation makes of the conversion to int64 of
    a float that no int64 holds. *)
Record Runtime : Type := mkRuntime {
  math_Pow : float64 -> float64 -> float64;
  int64_of_unrepresentable : float64 -> Z
}.

(** [time.Duration(x)]. *)
Definition Duration_of_float64 (rt : Runtime) (x : float64) : Duration :=
  match int64_of_float64 x with
  | Some v => v
  | None => int64_of_unrepresentable rt x
  end.

Record RetryPolicy : Type := mkRetryPolicy {
  MaxAttempts : Z;
  InitialBackoff : Duration;
  MaxBackoff : Duration;
  BackoffFactor : float64;
  JitterFactor : float64
}.

Arguments mkRetryPolicy _ _ _ _%_float _%_float.

(** [0.1] is the float nearest to one tenth. *)
Definition DefaultRetryPolicy : RetryPolicy :=
  {| MaxAttempts := 3;
     InitialBackoff := 1 * Second;
     MaxBackoff := 5 * Minute;
     BackoffFactor := 2%float;
     JitterFactor := 0x1.999999999999ap-4%float |}.

(** The float [backoff] of [CalculateBackoff] for an attempt above 0, as it
    is when the function converts it.  [rnd] is the value of
    [rand.Float64()], a number of [0, 1); it is read only when the jitter
    factor is positive. *)
Definition backoff_float64 (rt : Runtime) (p : RetryPolicy) (attempt : Z)
    (rnd : float64) : float64 :=
  let backoff :=
    (float64_of_int (InitialBackoff p)
     * math_Pow rt (BackoffFactor p) (float64_of_int attempt))%float in
  let backoff :=
    if (float64_of_int (MaxBackoff p) <? backoff)%float
    then float64_of_int (MaxBackoff p) else backoff in
  let backoff :=
    if (0 <? JitterFactor p)%float
    then
      let jitter := (backoff * JitterFactor p * (rnd * 2 - 1))%float in
      (backoff + jitter)%float
    else backoff in
  if (backoff <? 0)%float then float64_of_int (InitialBackoff p) else backoff.

Arguments backoff_float64 _ _ _ _%_float.

Definition CalculateBackoff (rt : Runtime) (p : RetryPolicy) (attempt : Z)
    (rnd : float64) : Duration :=
  if attempt <=? 0 then InitialBackoff p
  else Duration_of_float64 rt (backoff_float64 rt p attempt rnd).

Arguments CalculateBackoff _ _ _ _%_float.

Definition ShouldRetry (p : RetryPolicy) (t : Task) : bool :=
  Attempts t <? MaxAttempts p.

Definition NextRetryTime (rt : Runtime) (p : RetryPolicy) (now : Time)
    (rnd : float64) (t : Task) : Time :=
  let backoff := CalculateBackoff rt p (Attempts t) rnd in
  now + backoff.

Module Retryer.

(** [NewRetryer]: a nil policy is replaced by the default one. *)
Definition NewRetryer (policy : option RetryPolicy) : RetryPolicy :=
  match policy with
  | None => DefaultRetryPolicy
  | Some p => p
  end.

Definition ProcessFailure (rt : Runtime) (policy : RetryPolicy)
    (now now' : Time) (rnd : float64) (errMsg : string) (t : Task)
    : Task * (bool * option Time) :=
  let t := set_Error errMsg t in
  let t := set_UpdatedAt now t in
  if ShouldRetry policy t
  then (t, (true, Some (NextRetryTime rt policy now' rnd t)))
  else (t, (false, None)).

Definition ScheduleRetry (rt : Runtime) (policy : RetryPolicy)
    (now now' : Time) (rnd : float64) (t : Task) : Task * option error :=
  match StateMachine.Retry now t with
  | (t, Some err) => (t, Some err)
  | (t, None) =>
      let retryAt := NextRetryTime rt policy now' rnd t in
      (set_ScheduledAt (Some retryAt) t, None)
  end.

(** [now] is the clock of the [Retry] transition, [now'] the one stored in
    [UpdatedAt]; the error of [Retry] is dropped. *)
Definition PrepareForRequeue (now now' : Time) (t : Task) : Task :=
  let t := fst (StateMachine.Retry now t) in
  let t := set_State StatePending t in
  let t := set_ScheduledAt None t in
  let t := set_UpdatedAt now' t in
  t.

End Retryer.

(* ================================================================= *)
(** ** The redis client

    The store is outside the repository: a call of the client is recorded
    in a log, and its reply is taken from an environment that answers the
    n-th call of a run.  The environment also holds the clock, read by
    [time_Now]; a function reads the clock for every [time.Now()] it may
    reach, before the branch that reaches it. *)

(** Bytes handed to or returned by the store.  [TaskJSON t] is the output
    of [json.Marshal] on [t], which [json.Unmarshal] reads back as [t];
    [DLQEntryJSON] is the marshalled entry of the dead letter stream; [Text]
    is a plain string, and stands for every value that does not decode to a
    task.  Marshalling a task does not fail: its payload and result come
    from decoded JSON. *)
Inductive Data : Type :=
| Text (s : string)
| TaskJSON (t : Task)
| DLQEntryJSON (t : Task) (reason : string) (addedAt : Time) (origError : string).

Definition json_Marshal (t : Task) : Data := TaskJSON t.

Definition json_Unmarshal (data : Data) : option Task :=
  match data with
  | TaskJSON t => Some t
  | _ => None
  end.

(** A value of a received stream message ([interface{}]). *)
Inductive Value : Type :=
| VString (s : string)
| VOther.

Record XMessage : Type := mkXMessage {
  MsgID : string;
  Values : list (string * Value)
}.

Record XStream : Type := mkXStream {
  Stream : string;
  Messages : list XMessage
}.

Record XPendingExt : Type := mkXPendingExt {
  PendingID : string;
  Consumer : string;
  Idle : Duration
}.

Inductive Cmd : Type :=
| SET (key : string) (value : Data) (expiration : Duration)
| GET (key : string)
| DEL (key : string)
| XADD (stream : string) (values : list (string * Data))
| XACK (stream group id : string)
| XREADGROUP (group consumer : string) (streams : list string) (count : Z)
    (block : Duration)
| XPENDING (stream group start stop : string) (count : Z)
| XCLAIM (stream group consumer : string) (minIdle : Duration)
    (messages : list string)
| SADD (key member : string)
| ZREM (key member : string).

Inductive Reply : Type :=
| ReplyNil                               (* redis.Nil *)
| ReplyError (msg : string)              (* any other error *)
| ReplyOK                                (* a status or an integer *)
| ReplyBytes (data : Data)
| ReplyStreams (r : list XStream)
| ReplyPending (r : list XPendingExt)
| ReplyMessages (r : list XMessage).

Record Env : Type := mkEnv {
  reply : nat -> Reply;
  clock : nat -> Time
}.

Record World : Type := mkWorld {
  log : list Cmd;
  ticks : nat
}.

Definition M (A : Type) : Type := Env -> World -> A * World.

Definition ret {A : Type} (a : A) : M A := fun _ w => (a, w).

Definition bind {A B : Type} (m : M A) (k : A -> M B) : M B :=
  fun e w => let (a, w') := m e w in k a e w'.

Notation "x <- m ;; k" := (bind m (fun x => k))
  (at level 61, m at next level, right associativity).
Notation "' pat <- m ;; k" := (bind m (fun x => match x with pat => k end))
  (at level 61, pat pattern, m at next level, right associativity).

Definition call (c : Cmd) : M Reply :=
  fun e w => (reply e (List.length (log w)), mkWorld (log w ++ [c]) (ticks w)).

Definition time_Now : M Time :=
  fun e w => (clock e (ticks w), mkWorld (log w) (S (ticks w))).

Definition start : World := mkWorld [] 0.

Definition run {A : Type} (m : M A) (e : Env) : A := fst (m e start).

Definition trace {A : Type} (m : M A) (e : Env) : list Cmd := log (snd (m e start)).

(** [.Err()] of a command whose value is not used. *)
Definition Err (r : Reply) : option error :=
  match r with
  | ReplyNil => Some (ErrStore "redis: nil")
  | ReplyError msg => Some (ErrStore msg)
  | _ => None
  end.

(** [m[key].(string)] on the values of a message. *)
Fixpoint string_value (values : list (string * Value)) (key : string)
    : option string :=
  match values with
  | [] => None
  | (k, v) :: rest =>
      if String.eqb k key
      then match v with VString s => Some s | VOther => None end
      else string_value rest key
  end.

(* ================================================================= *)
(** ** internal/queue: queue.go *)

Record RedisQueue : Type := mkRedisQueue {
  streamPrefix : string;
  consumerGroup : string;
  blockTimeout : Duration;
  claimMinIdle : Duration;
  taskRetentionDays : Z
}.

Definition priorities : list Priority :=
  [PriorityCritical; PriorityHigh; PriorityNormal; PriorityLow].

Definition taskKey (taskID : string) : string := "task:" ++ taskID.

Definition message_ref (t : Task) : list (string * Data) :=
  [("task_id", Text (ID t)); ("type", Text (Type_ t))].

Module Queue.

Definition Enqueue (q : RedisQueue) (t : Task) : M (option error) :=
  let streamName := StreamName (Priority_ t) (streamPrefix q) in
  let taskData := json_Marshal t in
  let key := taskKey (ID t) in
  r <- call (SET key taskData 0) ;;
  match Err r with
  | Some err => ret (Some (Errorf "failed to store task data" err))
  | None =>
      r <- call (XADD streamName (message_ref t)) ;;
      match Err r with
      | Some err =>
          _ <- call (DEL key) ;;
          ret (Some (Errorf "failed to add task to stream" err))
      | None => ret None
      end
  end.

Definition GetTask (q : RedisQueue) (taskID : string) : M (Task + error) :=
  r <- call (GET (taskKey taskID)) ;;
  match r with
  | ReplyNil => ret (inr ErrTaskNotFound)
  | ReplyError msg => ret (inr (Errorf "failed to get task" (ErrStore msg)))
  | ReplyBytes data =>
      match json_Unmarshal data with
      | None => ret (inr (Errorf "failed to unmarshal task" ErrUnmarshal))
      | Some t => ret (inl t)
      end
  | _ => ret (inr (Errorf "failed to get task" (ErrStore "unexpected reply")))
  end.

Definition DequeueBlocking (q : RedisQueue) (consumerID : string)
    : M (option Task * string * option error) :=
  let streams :=
    map (fun p => StreamName p (streamPrefix q)) priorities
    ++ map (fun _ => ">") priorities in
  r <- call (XREADGROUP (consumerGroup q) consumerID streams 1 (blockTimeout q)) ;;
  match r with
  | ReplyNil => ret (None, "", None)
  | ReplyStreams result =>
      match result with
      | [] => ret (None, "", None)
      | first :: _ =>
          match Messages first with
          | [] => ret (None, "", None)
          | msg :: _ =>
              let streamName := Stream first in
              match string_value (Values msg) "task_id" with
              | None =>
                  _ <- call (XACK streamName (consumerGroup q) (MsgID msg)) ;;
                  ret (None, "", None)
              | Some taskID =>
                  g <- GetTask q taskID ;;
                  match g with
                  | inr _ =>
                      _ <- call (XACK streamName (consumerGroup q) (MsgID msg)) ;;
                      ret (None, "", None)
                  | inl t => ret (Some t, MsgID msg, None)
                  end
              end
          end
      end
  | ReplyError msg =>
      ret (None, "", Some (Errorf "failed to read from streams" (ErrStore msg)))
  | _ =>
      ret (None, "",
           Some (Errorf "failed to read from streams" (ErrStore "unexpected reply")))
  end.

Definition Acknowledge (q : RedisQueue) (t : Task) (messageID : string)
    : M (option error) :=
  let streamName := StreamName (Priority_ t) (streamPrefix q) in
  r <- call (XACK streamName (consumerGroup q) messageID) ;;
  ret (Err r).

Definition UpdateTask (q : RedisQueue) (t : Task) : M (option error) :=
  let key := taskKey (ID t) in
  let data := json_Marshal t in
  if IsFinal (State_ t) && (taskRetentionDays q >? 0)
  then
    let ttl := wrap64 (wrap64 (taskRetentionDays q * 24) * Hour) in
    r <- call (SET key data ttl) ;;
    ret (Err r)
  else
    r <- call (SET key data 0) ;;
    ret (Err r).

(** The inner loop of [ClaimOrphanedTasks], over the pending entries of one
    stream. *)
Fixpoint claim_pending (q : RedisQueue) (consumerID streamName : string)
    (pending : list XPendingExt) (tasks : list Task) (messageIDs : list string)
    : M (list Task * list string) :=
  match pending with
  | [] => ret (tasks, messageIDs)
  | p :: rest =>
      if Idle p <? claimMinIdle q
      then claim_pending q consumerID streamName rest tasks messageIDs
      else
        r <- call (XCLAIM streamName (consumerGroup q) consumerID
                     (claimMinIdle q) [PendingID p]) ;;
        match r with
        | ReplyMessages (msg :: _) =>
            match string_value (Values msg) "task_id" with
            | None => claim_pending q consumerID streamName rest tasks messageIDs
            | Some taskID =>
                g <- GetTask q taskID ;;
                match g with
                | inr _ =>
                    claim_pending q consumerID streamName rest tasks messageIDs
                | inl t =>
                    claim_pending q consumerID streamName rest
                      (tasks ++ [t]) (messageIDs ++ [MsgID msg])
                end
            end
        | _ => claim_pending q consumerID streamName rest tasks messageIDs
        end
  end.

(** The outer loop, over the priorities. *)
Fixpoint claim_streams (q : RedisQueue) (consumerID : string)
    (ps : list Priority) (tasks : list Task) (messageIDs : list string)
    : M (list Task * list string) :=
  match ps with
  | [] => ret (tasks, messageIDs)
  | p :: rest =>
      let streamName := StreamName p (streamPrefix q) in
      r <- call (XPENDING streamName (consumerGroup q) "-" "+" 100) ;;
      match r with
      | ReplyPending pending =>
          ' (tasks, messageIDs) <-
            claim_pending q consumerID streamName pending tasks messageIDs ;;
          claim_streams q consumerID rest tasks messageIDs
      | _ => claim_streams q consumerID rest tasks messageIDs
      end
  end.

Definition ClaimOrphanedTasks (q : RedisQueue) (consumerID : string)
    : M (list Task * list string * option error) :=
  ' (tasks, messageIDs) <- claim_streams q consumerID priorities [] [] ;;
  ret (tasks, messageIDs, None).

End Queue.

(* ================================================================= *)
(** ** internal/queue: dlq.go *)

Definition dlqStreamName : string := "tasks:dlq".
Definition dlqSetName : string := "tasks:dlq:set".

Module DLQ.

Definition Add (t : Task) (reason : string) : M (Task * option error) :=
  now <- time_Now ;;
  now' <- time_Now ;;
  let t :=
    match StateMachine.MoveToDLQ now t with
    | (t, Some _) =>
        let t := set_State StateDeadLetter t in
        set_UpdatedAt now' t
    | (t, None) => t
    end in
  addedAt <- time_Now ;;
  let data := DLQEntryJSON t reason addedAt (Error t) in
  r <- call (XADD dlqStreamName
               [("task_id", Text (ID t)); ("type", Text (Type_ t)); ("data", data)]) ;;
  match Err r with
  | Some err => ret (t, Some (Errorf "failed to add to DLQ stream" err))
  | None =>
      _ <- call (SADD dlqSetName (ID t)) ;;
      ret (t, None)
  end.

End DLQ.

(* ================================================================= *)
(** ** internal/queue: scheduler.go *)

Definition scheduledSetKey : string := "tasks:scheduled".
Definition schedulerLockKey : string := "scheduler:lock".

Module Scheduler.

Definition activateTask (q : RedisQueue) (taskID : string) : M (option error) :=
  g <- Queue.GetTask q taskID ;;
  match g with
  | inr _ =>
      _ <- call (ZREM scheduledSetKey taskID) ;;
      ret None
  | inl t =>
      if negb (State_ t =? StateScheduled)
      then
        _ <- call (ZREM scheduledSetKey taskID) ;;
        ret None
      else
        now <- time_Now ;;
        match StateMachine.Transition now StatePending t with
        | (_, Some err) => ret (Some (Errorf "failed to transition task" err))
        | (t, None) =>
            u <- Queue.UpdateTask q t ;;
            match u with
            | Some err => ret (Some (Errorf "failed to update task" err))
            | None =>
                let streamName := StreamName (Priority_ t) (streamPrefix q) in
                r <- call (XADD streamName (message_ref t)) ;;
                match Err r with
                | Some err => ret (Some (Errorf "failed to add task to stream" err))
                | None =>
                    _ <- call (ZREM scheduledSetKey taskID) ;;
                    ret None
                end
            end
        end
  end.

End Scheduler.

(* ================================================================= *)
(** ** internal/worker: pool.go *)

Module Pool.

(** The pool's queue and its consumer name; the log calls are left out.
    The functions return the tasks as they are in memory at the end. *)
Definition handleTaskFailure (q : RedisQueue) (t : Task) (messageID : string)
    (execErr : string) : M Task :=
  if CanRetry t then
    now <- time_Now ;;
    let t := fst (StateMachine.Retry now t) in
    let t := set_Error execErr t in
    _ <- Queue.UpdateTask q t ;;
    now <- time_Now ;;
    now' <- time_Now ;;
    let t := Retryer.PrepareForRequeue now now' t in
    _ <- Queue.Enqueue q t ;;
    _ <- Queue.Acknowledge q t messageID ;;
    ret t
  else
    now <- time_Now ;;
    let t := fst (StateMachine.Fail now execErr t) in
    _ <- Queue.UpdateTask q t ;;
    ' (t, _) <- DLQ.Add t "max retries exceeded" ;;
    _ <- Queue.Acknowledge q t messageID ;;
    ret t.

(** The body of the loop of [recoverOrphanedTasks]. *)
Definition recoverTask (q : RedisQueue) (t : Task) (messageID : string)
    : M Task :=
  now <- time_Now ;;
  now' <- time_Now ;;
  let t := Retryer.PrepareForRequeue now now' t in
  e <- Queue.Enqueue q t ;;
  match e with
  | Some _ => ret t
  | None =>
      _ <- Queue.Acknowledge q t messageID ;;
      ret t
  end.

(** [for i, t := range tasks], with [messageIDs[i]]. *)
Fixpoint recover_loop (q : RedisQueue) (i : nat) (tasks : list Task)
    (messageIDs : list string) : M (list Task) :=
  match tasks with
  | [] => ret []
  | t :: rest =>
      t' <- recoverTask q t (nth i messageIDs "") ;;
      rest' <- recover_loop q (S i) rest messageIDs ;;
      ret (t' :: rest')
  end.

Definition recoverOrphanedTasks (q : RedisQueue) (id : string) : M (list Task) :=
  ' (tasks, messageIDs, err) <- Queue.ClaimOrphanedTasks q id ;;
  match err with
  | Some _ => ret []
  | None => recover_loop q 0 tasks messageIDs
  end.

End Pool.


(* ================================================================= *)
(** ** The transition table of the specification *)

(** The table of section 4.1, one pair per allowed transition. *)
Definition spec_transitions : list (State * State) :=
  [ (StatePending, StateScheduled); (StatePending, StateRunning);
    (StatePending, StateCancelled);
    (StateScheduled, StatePending); (StateScheduled, StateRunning);
    (StateScheduled, StateCancelled);
    (StateRunning, StateCompleted); (StateRunning, StateFailed);
    (StateRunning, StateRetrying); (StateRunning, StateCancelled);
    (StateRetrying, StateRunning); (StateRetrying, StateFailed);
    (StateRetrying, StateDeadLetter); (StateRetrying, StateCancelled);
    (StateFailed, StateRetrying); (StateFailed, StateDeadLetter);
    (StateFailed, StatePending);
    (StateDeadLetter, StatePending) ].

Definition in_spec_table (from to : State) : bool :=
  existsb (fun p => (fst p =? from) && (snd p =? to)) spec_transitions.

Definition all_states : list State :=
  [ StatePending; StateScheduled; StateRunning; StateCompleted; StateFailed;
    StateRetrying; StateCancelled; StateDeadLetter ].

(* ================================================================= *)
(** ** Example inputs *)

(** A fresh task, pending. *)
Definition example_task : Task := New "7f3c" 100 "echo" None PriorityHigh.

(** A task claimed by worker w1 on its second attempt, whose previous
    attempt failed with boom. *)
Definition running_task : Task :=
  {| ID := "7f3c";
     Type_ := "echo";
     Payload := None;
     Priority_ := PriorityHigh;
     State_ := StateRunning;
     Attempts := 2;
     MaxRetries := 3;
     Error := "boom";
     Result := None;
     WorkerID := "w1";
     CreatedAt := 100;
     UpdatedAt := 130;
     StartedAt := Some 130;
     CompletedAt := None;
     ScheduledAt := None;
     Timeout := 5 * Minute;
     Metadata := Some [] |}.

(** The command of the blocking read: the four streams by falling priority,
    then one [>] per stream, one message, the configured block time. *)
Definition blocking_read (q : RedisQueue) (consumerID : string) : Cmd :=
  XREADGROUP (consumerGroup q) consumerID
    [ (streamPrefix q ++ ":critical")%string; (streamPrefix q ++ ":high")%string;
      (streamPrefix q ++ ":normal")%string; (streamPrefix q ++ ":low")%string;
      ">"; ">"; ">"; ">" ]
    1 (blockTimeout q).

Definition example_queue : RedisQueue :=
  {| streamPrefix := "tasks";
     consumerGroup := "workers";
     blockTimeout := 5 * Second;
     claimMinIdle := 30 * Second;
     taskRetentionDays := 7 |}.

Definition example_clock (n : nat) : Time := 1000 + Z.of_nat n.

(** The store answers every command with success. *)
Definition env_ok : Env := mkEnv (fun _ => ReplyOK) example_clock.

(** The blocking read times out. *)
Definition env_timeout : Env := mkEnv (fun _ => ReplyNil) example_clock.

(** The blocking read delivers a message of the high stream whose task
    record is gone. *)
Definition env_poison : Env :=
  mkEnv (fun n =>
           match n with
           | O => ReplyStreams
                    [mkXStream "tasks:high"
                       [mkXMessage "1700000000000-0"
                          [("task_id", VString "gone"); ("type", VString "echo")]]]
           | 1%nat => ReplyNil
           | _ => ReplyOK
           end)
        example_clock.

(** A task scheduled for later, as the handler of the API stores it. *)
Definition scheduled_task : Task := set_State StateScheduled example_task.

(** The store holds the record [t] and answers the rest with success. *)
Definition env_record (t : Task) : Env :=
  mkEnv (fun n => match n with O => ReplyBytes (TaskJSON t) | _ => ReplyOK end)
        example_clock.



(** The product of [n] factors [x]. *)
Fixpoint pow_nat (x : float64) (n : nat) : float64 :=
  match n with
  | O => 1%float
  | S n => (x * pow_nat x n)%float
  end.

(** [math.Pow] for the examples, on the integral exponents that
    [CalculateBackoff] passes: the special cases of the library
    ([Pow(x, 0) = Pow(1, y) = 1], [Pow(x, 1) = x]) and, for the other
    exponents, the product of the factors, which is the power itself, and so
    what the library returns, where no product is rounded: in the examples
    of this file none is. *)
Definition example_Pow (x y : float64) : float64 :=
  if (y =? 0)%float || (x =? 1)%float then 1%float
  else if (y =? 1)%float then x
  else
    match int64_of_float64 y with
    | Some n => if n <? 0 then (1 / pow_nat x (Z.to_nat (- n)))%float
                else pow_nat x (Z.to_nat n)
    | None => nan
    end.

(** The runtime of the examples: the conversion of the amd64 port, whose
    instruction answers the smallest int64 for a float that no int64
    holds. *)
Definition go_amd64 : Runtime :=
  {| math_Pow := example_Pow;
     int64_of_unrepresentable := fun _ => - 2 ^ 63 |}.



(** A task created with max_retries = 1, claimed and started once. *)
Definition single_retry_task : Task :=
  {| ID := "a1b2";
     Type_ := "echo";
     Payload := None;
     Priority_ := PriorityNormal;
     State_ := StateRunning;
     Attempts := 1;
     MaxRetries := 1;
     Error := "";
     Result := None;
     WorkerID := "w1";
     CreatedAt := 100;
     UpdatedAt := 130;
     StartedAt := Some 130;
     CompletedAt := None;
     ScheduledAt := None;
     Timeout := 5 * Minute;
     Metadata := Some [] |}.

(** The retention of a record written in a final state by [UpdateTask]. *)
Definition final_ttl (q : RedisQueue) : Duration :=
  if taskRetentionDays q >? 0
  then wrap64 (wrap64 (taskRetentionDays q * 24) * Hour) else 0.

(** The recovery loop finds one idle message on the high stream, claims it
    and reads the record [t]; the other streams have nothing pending. *)
Definition env_orphan (t : Task) : Env :=
  mkEnv (fun n =>
           match n with
           | O => ReplyPending []
           | 1%nat => ReplyPending [mkXPendingExt "1700000000000-0" "w0" (60 * Second)]
           | 2%nat => ReplyMessages
                        [mkXMessage "1700000000000-0"
                           [("task_id", VString (ID t)); ("type", VString (Type_ t))]]
           | 3%nat => ReplyBytes (TaskJSON t)
           | 4%nat => ReplyPending []
           | 5%nat => ReplyPending []
           | _ => ReplyOK
           end)
        example_clock.

(** What the recovery loop does to a reclaimed task in memory: the state is
    pending, the schedule is cleared, and identity, priority, attempts and
    error are those of the reclaimed record. *)
Definition requeued (t t' : Task) : Prop :=
  State_ t' = StatePending
  /\ ScheduledAt t' = None
  /\ Attempts t' = Attempts t
  /\ Error t' = Error t
  /\ ID t' = ID t
  /\ Type_ t' = Type_ t
  /\ Priority_ t' = Priority_ t.

(** The commands that the recovery loop sends for the tasks [recovered], as
    they are after their preparation, the first of them being the [i]-th
    reclaimed task, when the answers of the store are those of [env] from
    the [n]-th on.  For each task: the write of its record, then the append
    of a reference to the stream of its priority, then the acknowledgement
    of its old message, [messageIDs[i]]; a failed write ends the commands of
    the task, and a failed append is followed by the deletion of the record
    instead of the acknowledgement. *)
Fixpoint requeue_commands (q : RedisQueue) (env : Env) (n i : nat)
    (recovered : list Task) (messageIDs : list string) : list Cmd :=
  match recovered with
  | [] => []
  | t :: rest =>
      let key := ("task:" ++ ID t)%string in
      let stream :=
        (streamPrefix q ++ ":" ++ Priority_String (Priority_ t))%string in
      let write := SET key (TaskJSON t) 0 in
      let append :=
        XADD stream [("task_id", Text (ID t)); ("type", Text (Type_ t))] in
      let sent :=
        match Err (reply env n), Err (reply env (S n)) with
        | Some _, _ => [write]
        | None, Some _ => [write; append; DEL key]
        | None, None =>
            [write; append;
             XACK stream (consumerGroup q) (nth i messageIDs "")]
        end in
      sent ++ requeue_commands q env (n + List.length sent) (S i) rest
                messageIDs
  end.

(* ================================================================= *)
(** ** Vocabulary of the further properties *)

(** The fields no operation of the task package writes after creation. *)
Definition same_identity (t t' : Task) : Prop :=
  ID t' = ID t
  /\ Type_ t' = Type_ t
  /\ Payload t' = Payload t
  /\ Priority_ t' = Priority_ t
  /\ MaxRetries t' = MaxRetries t
  /\ CreatedAt t' = CreatedAt t
  /\ Timeout t' = Timeout t
  /\ Metadata t' = Metadata t.

(** The states a worker may start a task from. *)
Definition startable (s : State) : Prop :=
  s = StatePending \/ s = StateScheduled \/ s = StateRetrying.

(** The largest Go [int]. *)
Definition MaxInt : Z := 2 ^ 63 - 1.

(* ----------------------------------------------------------------- *)
(** *** retry.go: retry information *)

Record RetryInfo : Type := mkRetryInfo {
  Info_ShouldRetry : bool;
  NextRetryAt : Time;
  BackoffDelay : Duration;
  AttemptsLeft : Z;
  TotalAttempts : Z
}.

Definition GetRetryInfo (rt : Runtime) (p : RetryPolicy) (now : Time)
    (rnd : float64) (t : Task) : RetryInfo :=
  let shouldRetry := ShouldRetry p t in
  let backoff := CalculateBackoff rt p (Attempts t) rnd in
  {| Info_ShouldRetry := shouldRetry;
     NextRetryAt := now + backoff;
     BackoffDelay := backoff;
     AttemptsLeft := wrap64 (MaxAttempts p - Attempts t);
     TotalAttempts := MaxAttempts p |}.

(* ----------------------------------------------------------------- *)
(** *** queue.go: the other operations of the queue *)

(** The loop of [Dequeue] over the priorities. *)
Fixpoint dequeue_from (q : RedisQueue) (consumerID : string)
    (ps : list Priority) : M (option Task * string * option error) :=
  match ps with
  | [] => ret (None, "", None)
  | p :: rest =>
      let streamName := StreamName p (streamPrefix q) in
      r <- call (XREADGROUP (consumerGroup q) consumerID [streamName; ">"] 1 0) ;;
      match r with
      | ReplyNil => dequeue_from q consumerID rest
      | ReplyStreams streams =>
          match streams with
          | [] => dequeue_from q consumerID rest
          | first :: _ =>
              match Messages first with
              | [] => dequeue_from q consumerID rest
              | msg :: _ =>
                  match string_value (Values msg) "task_id" with
                  | None =>
                      _ <- call (XACK streamName (consumerGroup q) (MsgID msg)) ;;
                      dequeue_from q consumerID rest
                  | Some taskID =>
                      g <- Queue.GetTask q taskID ;;
                      match g with
                      | inr _ =>
                          _ <- call (XACK streamName (consumerGroup q) (MsgID msg)) ;;
                          dequeue_from q consumerID rest
                      | inl t => ret (Some t, MsgID msg, None)
                      end
                  end
              end
          end
      | ReplyError msg =>
          ret (None, "",
               Some (Errorf ("failed to read from stream " ++ streamName)
                       (ErrStore msg)))
      | _ =>
          ret (None, "",
               Some (Errorf ("failed to read from stream " ++ streamName)
                       (ErrStore "unexpected reply")))
      end
  end.

Definition Dequeue (q : RedisQueue) (consumerID : string)
    : M (option Task * string * option error) :=
  dequeue_from q consumerID priorities.

Definition UpdateTaskWithTTL (q : RedisQueue) (t : Task) (ttl : Duration)
    : M (option error) :=
  r <- call (SET (taskKey (ID t)) (json_Marshal t) ttl) ;;
  ret (Err r).

Definition GetRetentionTTL (q : RedisQueue) : Duration :=
  if taskRetentionDays q <=? 0 then 0
  else wrap64 (wrap64 (taskRetentionDays q * 24) * Hour).

Definition DeleteTask (q : RedisQueue) (taskID : string) : M (option error) :=
  r <- call (DEL (taskKey taskID)) ;;
  ret (Err r).

(** The commands [ClaimOrphanedTasks] may issue. *)
Definition claim_command (c : Cmd) : Prop :=
  match c with
  | XPENDING _ _ _ _ _ | XCLAIM _ _ _ _ _ | GET _ => True
  | _ => False
  end.

(* ----------------------------------------------------------------- *)
(** *** internal/worker: executor.go

    A handler is a function of the task; it is taken not to write the task
    it is given.  What it does is its return, or a panic with a printed
    value.  The clock reads of [Execute] feed the log only. *)

(** An error value of the worker: one of the three sentinels of the
    package, or any other error, known by its message. *)
Inductive ExecError : Type :=
| ErrHandlerNotFound
| ErrTaskTimeout
| ErrTaskCanceled
| ErrorString (msg : string).

(** [err.Error()]. *)
Definition ExecError_Error (e : ExecError) : string :=
  match e with
  | ErrHandlerNotFound => "handler not found for task type"
  | ErrTaskTimeout => "task execution timed out"
  | ErrTaskCanceled => "task execution canceled"
  | ErrorString msg => msg
  end.

(** The error of a handler, as [Execute] tells errors apart: one that
    [errors.Is] finds to be [context.DeadlineExceeded], else one that it
    finds to be [context.Canceled], else any other error value, which may be
    a sentinel of the package. *)
Inductive HandlerError : Type :=
| DeadlineExceeded
| Canceled
| OtherError (err : ExecError).

Inductive HandlerOutcome : Type :=
| Returned (result : JSONObject) (err : option HandlerError)
| Panicked (value : string).

Definition TaskHandler := Task -> HandlerOutcome.

(** [e.handlers[taskType]] with the comma-ok result. *)
Fixpoint find_handler (handlers : list (string * TaskHandler)) (taskType : string)
    : option TaskHandler :=
  match handlers with
  | [] => None
  | (k, h) :: rest =>
      if String.eqb k taskType then Some h else find_handler rest taskType
  end.

Definition Execute (handlers : list (string * TaskHandler)) (t : Task)
    : JSONObject * option ExecError :=
  match find_handler handlers (Type_ t) with
  | None => (None, Some ErrHandlerNotFound)
  | Some handler =>
      match handler t with
      | Panicked value =>
          (None, Some (ErrorString ("handler panicked: " ++ value)))
      | Returned _ (Some DeadlineExceeded) => (None, Some ErrTaskTimeout)
      | Returned _ (Some Canceled) => (None, Some ErrTaskCanceled)
      | Returned _ (Some (OtherError err)) => (None, Some err)
      | Returned result None => (result, None)
      end
  end.

Definition HasHandler (handlers : list (string * TaskHandler)) (taskType : string)
    : bool :=
  match find_handler handlers taskType with
  | Some _ => true
  | None => false
  end.

(* ----------------------------------------------------------------- *)
(** *** pool.go: fetching and settling one task

    The table of running tasks and the timeout context of the execution are
    not part of the model. *)

Definition handleTaskSuccess (q : RedisQueue) (t : Task) (messageID : string)
    (result : JSONObject) : M (Task * option error) :=
  now <- time_Now ;;
  match StateMachine.Complete now result t with
  | (t, Some err) => ret (t, Some (Errorf "failed to complete task" err))
  | (t, None) =>
      u <- Queue.UpdateTask q t ;;
      match u with
      | Some err => ret (t, Some (Errorf "failed to update task" err))
      | None =>
          a <- Queue.Acknowledge q t messageID ;;
          match a with
          | Some err => ret (t, Some (Errorf "failed to acknowledge" err))
          | None => ret (t, None)
          end
      end
  end.

(** [id] is the name of the pool; the result holds the task as it is in
    memory at the end, when one was fetched. *)
Definition processNextTask (q : RedisQueue) (id : string)
    (handlers : list (string * TaskHandler)) : M (option Task * option error) :=
  ' (fetched, messageID, err) <- Queue.DequeueBlocking q id ;;
  match err with
  | Some err => ret (None, Some (Errorf "failed to dequeue" err))
  | None =>
      match fetched with
      | None => ret (None, None)
      | Some t =>
          now <- time_Now ;;
          now' <- time_Now ;;
          match StateMachine.Start now now' id t with
          | (t, Some err) => ret (Some t, Some err)
          | (t, None) =>
              _ <- Queue.UpdateTask q t ;;
              match Execute handlers t with
              | (_, Some execErr) =>
                  t <- Pool.handleTaskFailure q t messageID
                         (ExecError_Error execErr) ;;
                  ret (Some t, None)
              | (result, None) =>
                  ' (t, err) <- handleTaskSuccess q t messageID result ;;
                  ret (Some t, err)
              end
          end
      end
  end.

(* ----------------------------------------------------------------- *)
(** *** task.go and internal/api/handlers: responses *)

Record TaskResponse : Type := mkTaskResponse {
  RespID : string;
  RespType : string;
  RespPayload : JSONObject;
  RespPriority : string;
  RespState : string;
  RespAttempts : Z;
  RespMaxRetries : Z;
  RespError : string;
  RespResult : JSONObject;
  RespWorkerID : string;
  RespCreatedAt : Time;
  RespUpdatedAt : Time;
  RespStartedAt : option Time;
  RespCompletedAt : option Time;
  RespMetadata : option (list (string * string))
}.

Definition ToResponse (t : Task) : TaskResponse :=
  {| RespID := ID t;
     RespType := Type_ t;
     RespPayload := Payload t;
     RespPriority := Priority_String (Priority_ t);
     RespState := State_String (State_ t);
     RespAttempts := Attempts t;
     RespMaxRetries := MaxRetries t;
     RespError := Error t;
     RespResult := Result t;
     RespWorkerID := WorkerID t;
     RespCreatedAt := CreatedAt t;
     RespUpdatedAt := UpdatedAt t;
     RespStartedAt := StartedAt t;
     RespCompletedAt := CompletedAt t;
     RespMetadata := Metadata t |}.

Definition StatusOK : Z := 200.
Definition StatusBadRequest : Z := 400.
Definition StatusNotFound : Z := 404.
Definition StatusConflict : Z := 409.
Definition StatusInternalServerError : Z := 500.

(** What a handler writes: the status and the encoded value. *)
Inductive Response : Type :=
| RespondError (status : Z) (message : string)
| RespondTask (status : Z) (t : TaskResponse)
| RespondMap (status : Z) (fields : list (string * string)).

Definition status_of (r : Response) : Z :=
  match r with
  | RespondError status _ => status
  | RespondTask status _ => status
  | RespondMap status _ => status
  end.

Module TaskHandler.

(** [Get]: GET /api/v1/tasks/{taskID}. *)
Definition Get (q : RedisQueue) (taskID : string) : M Response :=
  if String.eqb taskID "" then ret (RespondError StatusBadRequest "task ID is required")
  else
    g <- Queue.GetTask q taskID ;;
    match g with
    | inr ErrTaskNotFound => ret (RespondError StatusNotFound "task not found")
    | inr _ => ret (RespondError StatusInternalServerError "failed to get task")
    | inl t => ret (RespondTask StatusOK (ToResponse t))
    end.

(** [Cancel]: DELETE /api/v1/tasks/{taskID}. *)
Definition Cancel (q : RedisQueue) (taskID : string) : M Response :=
  if String.eqb taskID "" then ret (RespondError StatusBadRequest "task ID is required")
  else
    g <- Queue.GetTask q taskID ;;
    match g with
    | inr ErrTaskNotFound => ret (RespondError StatusNotFound "task not found")
    | inr _ => ret (RespondError StatusInternalServerError "failed to get task")
    | inl t =>
        if negb (State_ t =? StatePending) && negb (State_ t =? StateScheduled)
        then ret (RespondError StatusConflict
                    "task cannot be cancelled in current state")
        else
          now <- time_Now ;;
          match StateMachine.Cancel now t with
          | (_, Some _) => ret (RespondError StatusConflict "failed to cancel task")
          | (t, None) =>
              u <- Queue.UpdateTask q t ;;
              match u with
              | Some _ =>
                  ret (RespondError StatusInternalServerError "failed to cancel task")
              | None => ret (RespondTask StatusOK (ToResponse t))
              end
          end
    end.

End TaskHandler.

Module AdminHandler.

(** [RetryTask]: POST /admin/tasks/{taskID}/retry. *)
Definition RetryTask (q : RedisQueue) (taskID : string) : M Response :=
  if String.eqb taskID "" then ret (RespondError StatusBadRequest "task ID is required")
  else
    g <- Queue.GetTask q taskID ;;
    match g with
    | inr ErrTaskNotFound => ret (RespondError StatusNotFound "task not found")
    | inr _ => ret (RespondError StatusInternalServerError "failed to get task")
    | inl t =>
        if negb (State_ t =? StateFailed) && negb (State_ t =? StateDeadLetter)
        then ret (RespondError StatusConflict
                    "only failed or dead_letter tasks can be retried")
        else
          now <- time_Now ;;
          match StateMachine.Requeue now t with
          | (_, Some _) => ret (RespondError StatusConflict "failed to requeue task")
          | (t, None) =>
              u <- Queue.UpdateTask q t ;;
              match u with
              | Some _ =>
                  ret (RespondError StatusInternalServerError "failed to retry task")
              | None =>
                  e <- Queue.Enqueue q t ;;
                  match e with
                  | Some _ =>
                      ret (RespondError StatusInternalServerError
                             "failed to retry task")
                  | None =>
                      ret (RespondMap StatusOK
                             [("message", "task re-queued"); ("task_id", taskID)])
                  end
              end
          end
    end.

End AdminHandler.

(** A message of the critical stream for the task [t] is delivered and its
    record is read; the store answers the rest with success. *)
Definition env_deliver (t : Task) : Env :=
  mkEnv (fun n =>
           match n with
           | O => ReplyStreams
                    [mkXStream "tasks:critical"
                       [mkXMessage "1700000000000-0"
                          [("task_id", VString (ID t)); ("type", VString (Type_ t))]]]
           | 1%nat => ReplyBytes (TaskJSON t)
           | _ => ReplyOK
           end)
        example_clock.

(** Every stream has one pending entry, idle for ten seconds. *)
Definition env_young : Env :=
  mkEnv (fun _ => ReplyPending [mkXPendingExt "1700000000000-0" "w0" (10 * Second)])
        example_clock.

(** A handler that returns the payload, one that always fails, and one that
    answers with the sentinel of the executor. *)
Definition echo_handler : TaskHandler := fun t => Returned (Payload t) None.

Definition failing_handler : TaskHandler :=
  fun _ => Returned None (Some (OtherError (ErrorString "boom"))).

Definition delegating_handler : TaskHandler :=
  fun _ => Returned None (Some (OtherError ErrHandlerNotFound)).

Definition example_handlers : list (string * TaskHandler) :=
  [("echo", echo_handler); ("fail", failing_handler);
   ("delegate", delegating_handler)].

(** A pending task for the handler that answers with the sentinel. *)
Definition delegated_task : Task := New "e5f6" 100 "delegate" None PriorityLow.

(** A pending task whose type has no handler, and a cancelled one. *)
Definition unknown_task : Task := New "c3d4" 100 "resize" None PriorityLow.

Definition cancelled_task : Task :=
  fst (StateMachine.Cancel 120 example_task).

(* ================================================================= *)
(** ** Theorems *)

(** One row of the table: the source state is known, the target is compared
    with each listed state in turn. *)
Ltac table_row E :=
  apply Z.eqb_eq in E; subst; cbn;
  repeat match goal with |- context [?x =? ?y] => destruct (x =? y) end;
  reflexivity.

Lemma CanTransitionTo_in_spec_table (from to : State) :
  CanTransitionTo from to = in_spec_table from to.
Proof.
  unfold CanTransitionTo, in_spec_table, ValidTransitions, spec_transitions.
  cbn [map_lookup existsb fst snd].
  unfold StatePending, StateScheduled, StateRunning, StateCompleted,
    StateFailed, StateRetrying, StateCancelled, StateDeadLetter.
  destruct (0 =? from) eqn:E0; [table_row E0|].
  destruct (1 =? from) eqn:E1; [table_row E1|].
  destruct (2 =? from) eqn:E2; [table_row E2|].
  destruct (5 =? from) eqn:E5; [table_row E5|].
  destruct (4 =? from) eqn:E4; [table_row E4|].
  destruct (3 =? from) eqn:E3; [table_row E3|].
  destruct (6 =? from) eqn:E6; [table_row E6|].
  destruct (7 =? from) eqn:E7; [table_row E7|].
  reflexivity.
Qed.

(* ----------------------------------------------------------------- *)
(** *** Binary64 arithmetic on the integers below 2^53

    The operations of the primitive floats are specified by [SpecFloat]
    (the axioms of [FloatAxioms]); on integers that fit the 53 bits of the
    significand they are exact. *)






















(** A float that is not below zero has no negative integer part, and the
    float of a natural number is not below zero. *)
Lemma int64_of_float64_nonneg (x : float64) (v : Z) :
  (x <? 0)%float = false -> int64_of_float64 x = Some v -> 0 <= v.
Proof.
  rewrite FloatAxioms.ltb_spec. unfold int64_of_float64.
  change (Prim2SF 0) with (S754_zero false).
  destruct (Prim2SF x) as [s|s| |s m e]; try discriminate.
  - intros _ H. inversion H. lia.
  - destruct s; [discriminate|]. intros _. cbv zeta.
    destruct (_ && _); [|discriminate]. intro H. inversion H.
    apply Z.shiftl_nonneg. lia.
Qed.

Lemma binary_round_aux_sign (mx : Z) (ex : Z) (lx : location) :
  match binary_round_aux prec emax false mx ex lx with
  | S754_finite true _ _ | S754_infinity true => False
  | _ => True
  end.
Proof.
  unfold binary_round_aux.
  destruct (shr_fexp prec emax mx ex lx) as [mrs' e'].
  destruct (shr_fexp prec emax _ e' loc_Exact) as [mrs'' e''].
  destruct (shr_m mrs''); [exact I| |exact I].
  destruct (Z.leb e'' (emax - prec)); exact I.
Qed.

Lemma float64_of_int_nonneg (z v : Z) :
  0 <= z -> int64_of_float64 (float64_of_int z) = Some v -> 0 <= v.
Proof.
  intro Hz. unfold float64_of_int.
  destruct (Z.ltb_spec z 0) as [Hneg|_]; [lia|].
  unfold int64_of_float64. rewrite of_uint63_spec.
  pose proof (Uint63.to_Z_bounded (Uint63.of_Z z)) as [Hb _].
  destruct (Uint63.to_Z (Uint63.of_Z z)) as [|n|n]; [| |lia].
  - cbn. intro H. inversion H. lia.
  - cbn [binary_normalize]. unfold binary_round.
    destruct (shl_align _ _ _) as [mz ez].
    pose proof (binary_round_aux_sign (Zpos mz) ez loc_Exact) as Hs.
    destruct (binary_round_aux prec emax false (Zpos mz) ez loc_Exact)
      as [s|s| |s m e]; try discriminate.
    + intro H. inversion H. lia.
    + destruct s; [contradiction|]. cbv zeta.
      destruct (_ && _); [|discriminate]. intro H. inversion H.
      apply Z.shiftl_nonneg. lia.
Qed.

(* ----------------------------------------------------------------- *)
(** *** Backoff *)

(** The delay is not negative when the float has an integer part that a
    duration holds. *)
Lemma CalculateBackoff_nonneg (rt : Runtime) (p : RetryPolicy) (n : Z)
    (rnd : float64) :
  0 <= InitialBackoff p ->
  int64_of_float64 (backoff_float64 rt p n rnd) <> None ->
  0 <= CalculateBackoff rt p n rnd.
Proof.
  intros Hi Hr. unfold CalculateBackoff.
  destruct (n <=? 0); [exact Hi|].
  unfold Duration_of_float64.
  destruct (int64_of_float64 (backoff_float64 rt p n rnd)) as [v|] eqn:E;
    [|contradiction].
  unfold backoff_float64 in E. cbv zeta in E.
  match type of E with
  | int64_of_float64 (if (?b <? 0)%float then _ else _) = _ =>
      destruct (b <? 0)%float eqn:Eb
  end.
  - now apply (float64_of_int_nonneg (InitialBackoff p)).
  - eapply int64_of_float64_nonneg; eassumption.
Qed.



(* ----------------------------------------------------------------- *)
(** *** The state machine *)

Lemma in_spec_table_In (from to : State) :
  in_spec_table from to = true <-> In (from, to) spec_transitions.
Proof.
  unfold in_spec_table. rewrite existsb_exists. split.
  - intros [[a b] [Hin Heq]]. cbn in Heq.
    apply andb_true_iff in Heq. destruct Heq as [Ha Hb].
    apply Z.eqb_eq in Ha. apply Z.eqb_eq in Hb. now subst.
  - intro Hin. exists (from, to). split; [assumption|].
    cbn. now rewrite !Z.eqb_refl.
Qed.

Lemma Transition_invalid (now : Time) (to : State) (t : Task) :
  CanTransitionTo (State_ t) to = false ->
  StateMachine.Transition now to t = (t, Some ErrInvalidTransition).
Proof. intro H. unfold StateMachine.Transition. now rewrite H. Qed.

Lemma Transition_valid (now : Time) (to : State) (t : Task) :
  CanTransitionTo (State_ t) to = true ->
  snd (StateMachine.Transition now to t) = None
  /\ State_ (fst (StateMachine.Transition now to t)) = to
  /\ UpdatedAt (fst (StateMachine.Transition now to t)) = now.
Proof.
  intro H. unfold StateMachine.Transition. rewrite H. cbn.
  destruct (to =? StateRunning); [now cbn|].
  destruct (_ || _); now cbn.
Qed.

(** A failed [Transition] returns the invalid-transition error and leaves
    the task as it was. *)
Lemma Transition_error_unchanged (now : Time) (to : State) (t : Task) (e : error) :
  snd (StateMachine.Transition now to t) = Some e ->
  e = ErrInvalidTransition /\ fst (StateMachine.Transition now to t) = t.
Proof.
  unfold StateMachine.Transition.
  destruct (CanTransitionTo (State_ t) to); cbn.
  - discriminate.
  - intro H. inversion H. now split.
Qed.

Lemma Transition_error_inv (now : Time) (to : State) (t t' : Task) (e : error) :
  StateMachine.Transition now to t = (t', Some e) -> t' = t.
Proof.
  intro H. destruct (Transition_error_unchanged now to t e) as [_ Hf].
  - now rewrite H.
  - now rewrite H in Hf.
Qed.

(** A successful transition into a final state stamps [CompletedAt]. *)
Lemma Transition_final_sets_CompletedAt (now : Time) (to : State) (t : Task) :
  snd (StateMachine.Transition now to t) = None ->
  IsFinal to = true ->
  State_ (fst (StateMachine.Transition now to t)) = to
  /\ CompletedAt (fst (StateMachine.Transition now to t)) = Some now.
Proof.
  unfold StateMachine.Transition, IsFinal.
  destruct (CanTransitionTo (State_ t) to); cbn; [|discriminate].
  intros _ Hf.
  destruct (to =? StateRunning) eqn:Er.
  - apply Z.eqb_eq in Er. subst to. discriminate.
  - rewrite Hf. now cbn.
Qed.

(** C1: [CanTransitionTo] is a total boolean function that is true exactly
    on the pairs of the transition table of the specification, for all
    states (also integers that name no state); [Transition] fails with
    [ErrInvalidTransition], leaving the task untouched, on every pair
    outside the table and succeeds, moving the task to the target, on every
    pair of the table. *)
Theorem state_machine_matches_table (t : Task) (to : State) (now : Time) :
  (CanTransitionTo (State_ t) to = true <-> In (State_ t, to) spec_transitions)
  /\ (~ In (State_ t, to) spec_transitions ->
      StateMachine.Transition now to t = (t, Some ErrInvalidTransition))
  /\ (In (State_ t, to) spec_transitions ->
      snd (StateMachine.Transition now to t) = None
      /\ State_ (fst (StateMachine.Transition now to t)) = to).
Proof.
  assert (Hiff : CanTransitionTo (State_ t) to = true
                 <-> In (State_ t, to) spec_transitions).
  { rewrite CanTransitionTo_in_spec_table. apply in_spec_table_In. }
  split; [exact Hiff|]. split.
  - intro Hn. apply Transition_invalid.
    destruct (CanTransitionTo (State_ t) to); [|reflexivity].
    exfalso. apply Hn. now apply Hiff.
  - intro Hin. apply Hiff in Hin.
    destruct (Transition_valid now to t Hin) as (H1 & H2 & _). now split.
Qed.

Lemma state_machine_matches_table_witness :
  In (State_ example_task, StateRunning) spec_transitions
  /\ snd (StateMachine.Transition 101 StateRunning example_task) = None
  /\ ~ In (State_ example_task, StateCompleted) spec_transitions
  /\ StateMachine.Transition 101 StateCompleted example_task
     = (example_task, Some ErrInvalidTransition).
Proof.
  assert (Hin : In (State_ example_task, StateRunning) spec_transitions).
  { cbn. right. left. reflexivity. }
  assert (Hout : ~ In (State_ example_task, StateCompleted) spec_transitions).
  { cbn. intro H. repeat (destruct H as [H|H]; [discriminate H|]). exact H. }
  split; [exact Hin|]. split.
  - exact (proj1 (proj2 (proj2 (state_machine_matches_table example_task StateRunning 101)) Hin)).
  - split; [exact Hout|].
    exact (proj1 (proj2 (state_machine_matches_table example_task StateCompleted 101)) Hout).
Defined.

(** The eight states: the table decides every pair of them. *)
Lemma CanTransitionTo_all_pairs :
  forall from to, In from all_states -> In to all_states ->
    CanTransitionTo from to = in_spec_table from to.
Proof. intros. apply CanTransitionTo_in_spec_table. Qed.

(* ----------------------------------------------------------------- *)
(** *** Priorities *)

(** C10: [PriorityFromInt] returns normal for every integer outside 0..3
    and low, normal, high, critical on 0, 1, 2, 3; [FromRequest] is total
    and gives the task the priority [PriorityFromInt] of the requested one,
    so an out-of-range priority is coerced to normal, not rejected. *)
Theorem PriorityFromInt_coerces (i : Z) :
  (i < 0 \/ 3 < i -> PriorityFromInt i = PriorityNormal)
  /\ PriorityFromInt 0 = PriorityLow
  /\ PriorityFromInt 1 = PriorityNormal
  /\ PriorityFromInt 2 = PriorityHigh
  /\ PriorityFromInt 3 = PriorityCritical
  /\ (forall uuid now req,
        ReqPriority req = i ->
        Priority_ (FromRequest uuid now req) = PriorityFromInt i)
  /\ (forall uuid now req,
        ReqPriority req = i -> i < 0 \/ 3 < i ->
        Priority_ (FromRequest uuid now req) = PriorityNormal).
Proof.
  assert (Hout : i < 0 \/ 3 < i -> PriorityFromInt i = PriorityNormal).
  { intro H. unfold PriorityFromInt.
    destruct (i <? 0) eqn:E1; [reflexivity|].
    destruct (i >? 3) eqn:E2; [reflexivity|].
    apply Z.ltb_ge in E1. rewrite Z.gtb_ltb in E2. apply Z.ltb_ge in E2. lia. }
  assert (Hreq : forall uuid now req,
             ReqPriority req = i ->
             Priority_ (FromRequest uuid now req) = PriorityFromInt i).
  { intros uuid now req <-. unfold FromRequest.
    destruct (ReqMaxRetries req >? 0), (ReqTimeout req >? 0),
      (ReqScheduledAt req), (ReqMetadata req); reflexivity. }
  repeat split; try reflexivity; try assumption.
  intros uuid now req Hi Hr. rewrite (Hreq uuid now req Hi). now apply Hout.
Qed.

Lemma PriorityFromInt_coerces_witness :
  PriorityFromInt 7 = PriorityNormal
  /\ Priority_ (FromRequest "7f3c" 100
                  (mkCreateTaskRequest "echo" None (-1) 0 0 None None))
     = PriorityNormal.
Proof.
  split.
  - apply (proj1 (PriorityFromInt_coerces 7)). right. lia.
  - apply (proj2 (proj2 (proj2 (proj2 (proj2 (proj2 (PriorityFromInt_coerces (-1))))))));
      [reflexivity | left; lia].
Defined.

(* ----------------------------------------------------------------- *)
(** *** Atomicity of the operations *)

(** The operations that validate before they write: on an error the task
    is returned as it was. *)
Lemma Start_error_unchanged (now now' : Time) (w : string) (t : Task) (e : error) :
  snd (StateMachine.Start now now' w t) = Some e ->
  fst (StateMachine.Start now now' w t) = t.
Proof.
  unfold StateMachine.Start.
  destruct (StateMachine.Transition now StateRunning t) as [t' [err|]] eqn:E; cbn.
  - intros _. eapply Transition_error_inv; eassumption.
  - discriminate.
Qed.

Lemma Complete_error_unchanged (now : Time) (r : JSONObject) (t : Task) (e : error) :
  snd (StateMachine.Complete now r t) = Some e ->
  fst (StateMachine.Complete now r t) = t.
Proof.
  unfold StateMachine.Complete.
  destruct (StateMachine.Transition now StateCompleted t) as [t' [err|]] eqn:E; cbn.
  - intros _. eapply Transition_error_inv; eassumption.
  - discriminate.
Qed.

Lemma Fail_error_unchanged (now : Time) (msg : string) (t : Task) (e : error) :
  snd (StateMachine.Fail now msg t) = Some e ->
  fst (StateMachine.Fail now msg t) = t.
Proof.
  unfold StateMachine.Fail.
  destruct (StateMachine.Transition now StateFailed t) as [t' [err|]] eqn:E; cbn.
  - intros _. eapply Transition_error_inv; eassumption.
  - discriminate.
Qed.

Lemma Retry_error_unchanged (now : Time) (t : Task) (e : error) :
  snd (StateMachine.Retry now t) = Some e ->
  fst (StateMachine.Retry now t) = t.
Proof.
  unfold StateMachine.Retry. destruct (negb (CanRetry t)); intro H;
    eapply Transition_error_unchanged; eassumption.
Qed.

Lemma Cancel_error_unchanged (now : Time) (t : Task) (e : error) :
  snd (StateMachine.Cancel now t) = Some e ->
  fst (StateMachine.Cancel now t) = t.
Proof. intro H. eapply Transition_error_unchanged; eassumption. Qed.

Lemma MoveToDLQ_error_unchanged (now : Time) (t : Task) (e : error) :
  snd (StateMachine.MoveToDLQ now t) = Some e ->
  fst (StateMachine.MoveToDLQ now t) = t.
Proof. intro H. eapply Transition_error_unchanged; eassumption. Qed.

(** [Requeue] fails exactly when [pending] is not a target of the state,
    and then the task has lost its worker, attempts, error and times. *)
Lemma Requeue_error_resets (now : Time) (t : Task) :
  CanTransitionTo (State_ t) StatePending = false ->
  StateMachine.Requeue now t
  = (set_CompletedAt None (set_StartedAt None (set_Error ""
       (set_Attempts 0 (set_WorkerID "" t)))),
     Some ErrInvalidTransition).
Proof.
  intro H. unfold StateMachine.Requeue. now apply Transition_invalid.
Qed.

(** C4: [Requeue] on a running task (worker w1, two attempts, error boom)
    returns [ErrInvalidTransition] and nevertheless has cleared the worker,
    the attempts, the error and the start time of the task. *)
Theorem Requeue_error_modifies_task (now : Time) :
  snd (StateMachine.Requeue now running_task) = Some ErrInvalidTransition
  /\ fst (StateMachine.Requeue now running_task) <> running_task
  /\ Attempts running_task = 2
  /\ Attempts (fst (StateMachine.Requeue now running_task)) = 0
  /\ Error (fst (StateMachine.Requeue now running_task)) = ""
  /\ WorkerID (fst (StateMachine.Requeue now running_task)) = ""
  /\ StartedAt (fst (StateMachine.Requeue now running_task)) = None
  /\ State_ (fst (StateMachine.Requeue now running_task)) = StateRunning.
Proof.
  rewrite Requeue_error_resets by reflexivity. cbn.
  repeat split; try reflexivity.
  intro H. discriminate H.
Qed.

(* ----------------------------------------------------------------- *)
(** *** The queue *)

Ltac step_m :=
  unfold run, trace, start, bind, ret, call, time_Now; cbn.

(** C8: in a blocking claim, a time-out of the read returns no task and no
    error and leaves the store alone; a message whose task record is absent
    or does not parse is acknowledged on the stream it came from, and the
    call returns no task and no error. *)
Theorem DequeueBlocking_discards (q : RedisQueue) (consumerID : string) (env : Env) :
  (reply env 0%nat = ReplyNil ->
     run (Queue.DequeueBlocking q consumerID) env = (None, "", None)
     /\ trace (Queue.DequeueBlocking q consumerID) env
        = [blocking_read q consumerID])
  /\ (forall first others msg msgs taskID,
        reply env 0%nat = ReplyStreams (first :: others) ->
        Messages first = msg :: msgs ->
        string_value (Values msg) "task_id" = Some taskID ->
        reply env 1%nat = ReplyNil
        \/ (exists data, reply env 1%nat = ReplyBytes data
                         /\ json_Unmarshal data = None) ->
        run (Queue.DequeueBlocking q consumerID) env = (None, "", None)
        /\ trace (Queue.DequeueBlocking q consumerID) env
           = [ blocking_read q consumerID;
               GET ("task:" ++ taskID)%string;
               XACK (Stream first) (consumerGroup q) (MsgID msg) ]).
Proof.
  split.
  - intro H0. unfold Queue.DequeueBlocking. step_m. rewrite H0. cbn. now split.
  - intros first others msg msgs taskID H0 Hm Hid H1.
    unfold Queue.DequeueBlocking, Queue.GetTask. step_m.
    rewrite H0, Hm, Hid. cbn.
    destruct H1 as [H1 | (data & H1 & Hd)]; rewrite H1; cbn.
    + now split.
    + rewrite Hd. cbn. now split.
Qed.

Lemma DequeueBlocking_discards_witness :
  (run (Queue.DequeueBlocking example_queue "w1") env_timeout = (None, "", None)
   /\ trace (Queue.DequeueBlocking example_queue "w1") env_timeout
      = [blocking_read example_queue "w1"])
  /\ (run (Queue.DequeueBlocking example_queue "w1") env_poison = (None, "", None)
      /\ trace (Queue.DequeueBlocking example_queue "w1") env_poison
         = [ blocking_read example_queue "w1";
             GET "task:gone";
             XACK "tasks:high" "workers" "1700000000000-0" ]).
Proof.
  split.
  - apply (proj1 (DequeueBlocking_discards example_queue "w1" env_timeout)).
    reflexivity.
  - apply (proj2 (DequeueBlocking_discards example_queue "w1" env_poison)
             (mkXStream "tasks:high"
                [mkXMessage "1700000000000-0"
                   [("task_id", VString "gone"); ("type", VString "echo")]])
             [] (mkXMessage "1700000000000-0"
                   [("task_id", VString "gone"); ("type", VString "echo")])
             [] "gone");
      try reflexivity.
    left. reflexivity.
Defined.

(* ----------------------------------------------------------------- *)
(** *** The scheduler *)

(** C9: for a due entry of the delayed index, when the record is missing or
    unreadable, or its state is not scheduled, the entry is removed from the
    index and nothing is appended to a stream; otherwise the task is moved
    from scheduled to pending, persisted, appended to the stream of its
    priority and removed from the index, in that order, each step being
    taken only when the one before it succeeded. *)
Theorem activateTask_promotes (q : RedisQueue) (taskID : string) (env : Env) :
  let get := GET ("task:" ++ taskID)%string in
  let zrem := ZREM "tasks:scheduled" taskID in
  ((forall t, reply env 0%nat <> ReplyBytes (TaskJSON t)) ->
     run (Scheduler.activateTask q taskID) env = None
     /\ trace (Scheduler.activateTask q taskID) env = [get; zrem])
  /\ (forall t,
        reply env 0%nat = ReplyBytes (TaskJSON t) ->
        State_ t <> StateScheduled ->
        run (Scheduler.activateTask q taskID) env = None
        /\ trace (Scheduler.activateTask q taskID) env = [get; zrem])
  /\ (forall t,
        reply env 0%nat = ReplyBytes (TaskJSON t) ->
        State_ t = StateScheduled ->
        let pending := set_UpdatedAt (clock env 0%nat) (set_State StatePending t) in
        let persist := SET ("task:" ++ ID t)%string (TaskJSON pending) 0 in
        let append :=
          XADD (streamPrefix q ++ ":" ++ Priority_String (Priority_ t))%string
               [("task_id", Text (ID t)); ("type", Text (Type_ t))] in
        (Err (reply env 1%nat) = None -> Err (reply env 2%nat) = None ->
           run (Scheduler.activateTask q taskID) env = None
           /\ trace (Scheduler.activateTask q taskID) env
              = [get; persist; append; zrem])
        /\ (Err (reply env 1%nat) <> None ->
              run (Scheduler.activateTask q taskID) env <> None
              /\ trace (Scheduler.activateTask q taskID) env = [get; persist])
        /\ (Err (reply env 1%nat) = None -> Err (reply env 2%nat) <> None ->
              run (Scheduler.activateTask q taskID) env <> None
              /\ trace (Scheduler.activateTask q taskID) env
                 = [get; persist; append])).
Proof.
  cbv zeta. split; [|split].
  - intro Hno. unfold Scheduler.activateTask, Queue.GetTask. step_m.
    destruct (reply env 0%nat) as [ | msg | | data | r | r | r ] eqn:E; cbn;
      try (now split).
    destruct data as [s | t | t r a o]; cbn; try (now split).
    exfalso. now apply (Hno t).
  - intros t H0 Hs. unfold Scheduler.activateTask, Queue.GetTask. step_m.
    rewrite H0. cbn.
    destruct (State_ t =? StateScheduled) eqn:E.
    + apply Z.eqb_eq in E. contradiction.
    + cbn. now split.
  - intros t H0 Hs.
    unfold Scheduler.activateTask, Queue.GetTask, Queue.UpdateTask,
      StateMachine.Transition, message_ref, StreamName.
    step_m. rewrite H0. cbn. rewrite Hs. cbn.
    split; [|split].
    + intros H1 H2. rewrite H1. cbn. rewrite H2. cbn. now split.
    + intros H1. destruct (Err (reply env 1%nat)); [|contradiction].
      cbn. split; [discriminate | reflexivity].
    + intros H1 H2. rewrite H1. cbn.
      destruct (Err (reply env 2%nat)); [|contradiction].
      cbn. split; [discriminate | reflexivity].
Qed.

Lemma activateTask_promotes_witness :
  trace (Scheduler.activateTask example_queue "7f3c") env_timeout
  = [GET "task:7f3c"; ZREM "tasks:scheduled" "7f3c"]
  /\ trace (Scheduler.activateTask example_queue "7f3c") (env_record example_task)
     = [GET "task:7f3c"; ZREM "tasks:scheduled" "7f3c"]
  /\ trace (Scheduler.activateTask example_queue "7f3c") (env_record scheduled_task)
     = [ GET "task:7f3c";
         SET "task:7f3c"
             (TaskJSON (set_UpdatedAt 1000 (set_State StatePending scheduled_task))) 0;
         XADD "tasks:high" [("task_id", Text "7f3c"); ("type", Text "echo")];
         ZREM "tasks:scheduled" "7f3c" ].
Proof.
  split; [|split].
  - apply (proj1 (activateTask_promotes example_queue "7f3c" env_timeout)).
    intros t H. discriminate H.
  - apply (proj1 (proj2 (activateTask_promotes example_queue "7f3c"
                           (env_record example_task))) example_task).
    + reflexivity.
    + intro H. discriminate H.
  - apply (proj1 (proj2 (proj2 (activateTask_promotes example_queue "7f3c"
                                  (env_record scheduled_task)))
                    scheduled_task eq_refl eq_refl)); reflexivity.
Defined.

(* ----------------------------------------------------------------- *)
(** *** The dead letter queue *)

(** [Add] leaves the task in state dead_letter, whatever its state was and
    whatever the store answers. *)
Lemma DLQ_Add_state (t : Task) (reason : string) (env : Env) (w : World) :
  State_ (fst (fst (DLQ.Add t reason env w))) = StateDeadLetter.
Proof.
  unfold DLQ.Add, StateMachine.MoveToDLQ, StateMachine.Transition. step_m.
  destruct (CanTransitionTo (State_ t) StateDeadLetter); cbn;
    destruct (Err (reply env (List.length (log w)))); reflexivity.
Qed.

(** From failed or retrying, the transition is taken and stamps the time. *)
Lemma DLQ_Add_from_failed_or_retrying (t : Task) (reason : string) (env : Env)
    (w : World) :
  State_ t = StateFailed \/ State_ t = StateRetrying ->
  CompletedAt (fst (fst (DLQ.Add t reason env w))) = Some (clock env (ticks w)).
Proof.
  intro Hs. unfold DLQ.Add, StateMachine.MoveToDLQ, StateMachine.Transition.
  step_m.
  assert (Hc : CanTransitionTo (State_ t) StateDeadLetter = true).
  { destruct Hs as [-> | ->]; reflexivity. }
  rewrite Hc. cbn.
  destruct (Err (reply env (List.length (log w)))); reflexivity.
Qed.

(** From any other state the state is forced and [CompletedAt] keeps the
    value it had. *)
Lemma DLQ_Add_forced (t : Task) (reason : string) (env : Env) (w : World) :
  CanTransitionTo (State_ t) StateDeadLetter = false ->
  CompletedAt (fst (fst (DLQ.Add t reason env w))) = CompletedAt t.
Proof.
  intro Hc. unfold DLQ.Add, StateMachine.MoveToDLQ, StateMachine.Transition.
  step_m. rewrite Hc. cbn.
  destruct (Err (reply env (List.length (log w)))); reflexivity.
Qed.

(** C3: [Add] on a fresh pending task, whose [CompletedAt] is unset, forces
    the final state dead_letter and leaves [CompletedAt] unset, for every
    answer of the store. *)
Theorem DLQ_Add_pending_leaves_CompletedAt_unset (reason : string) (env : Env) :
  State_ example_task = StatePending
  /\ CompletedAt example_task = None
  /\ State_ (fst (run (DLQ.Add example_task reason) env)) = StateDeadLetter
  /\ IsFinal (State_ (fst (run (DLQ.Add example_task reason) env))) = true
  /\ CompletedAt (fst (run (DLQ.Add example_task reason) env)) = None.
Proof.
  unfold run. rewrite DLQ_Add_state.
  rewrite DLQ_Add_forced by reflexivity.
  repeat split; reflexivity.
Qed.

(* ----------------------------------------------------------------- *)
(** *** Bounds of the backoff *)




(** The delays of the default policy on the runtime of the examples, for the
    draw 0.5 (no jitter) and for the draw 0.25.  And a float that no
    duration holds: with the largest duration as the cap, which is compared
    as the float 2^63, an initial backoff of 2^62 ns doubles to 2^63; what
    the delay then is depends on the implementation, and on amd64 it is
    negative. *)
Example CalculateBackoff_default_policy :
  map (fun a => CalculateBackoff go_amd64 DefaultRetryPolicy a 0.5)
      [0; 1; 2; 3; 4; 10]
  = [1 * Second; 2 * Second; 4 * Second; 8 * Second; 16 * Second; 5 * Minute]
  /\ CalculateBackoff go_amd64 DefaultRetryPolicy 3 0.25 = 7600000000
  /\ int64_of_float64
       (backoff_float64 go_amd64 (mkRetryPolicy 3 (2 ^ 62) (2 ^ 63 - 1) 2 0) 1 0)
     = None
  /\ CalculateBackoff go_amd64 (mkRetryPolicy 3 (2 ^ 62) (2 ^ 63 - 1) 2 0) 1 0
     = - 2 ^ 63.
Proof. vm_compute. repeat split; reflexivity. Qed.




(* ----------------------------------------------------------------- *)
(** *** The worker pool: settling a failed execution *)

(** C2, as stated, fails: a task with max_retries = 1 that failed its first
    attempt satisfies [ShouldRetry] of the pool's policy (1 < 3), and the
    pool does not put it back on its stream: it fails it, adds it to the
    dead letter queue and acknowledges the message. *)
Lemma handleTaskFailure_ignores_policy :
  ShouldRetry DefaultRetryPolicy single_retry_task = true
  /\ CanRetry single_retry_task = false
  /\ State_ (run (Pool.handleTaskFailure example_queue single_retry_task
                    "1700000000000-0" "boom") env_ok) = StateDeadLetter
  /\ map (fun c => match c with
                   | XADD stream _ => Some stream
                   | _ => None
                   end)
         (trace (Pool.handleTaskFailure example_queue single_retry_task
                   "1700000000000-0" "boom") env_ok)
     = [None; Some "tasks:dlq"; None; None].
Proof. vm_compute. repeat split; reflexivity. Qed.

(** C2, amended: the pool settles a failed execution of a claimed (running)
    task by the task's own predicate [CanRetry], attempts < max_retries of
    the task.  With a store that answers every command with success: when
    [CanRetry] holds the task goes to retrying with the error set and is
    persisted, it is then put back to pending, its record rewritten and a
    reference appended to the stream of its priority, and the original
    message is acknowledged; when [CanRetry] does not hold the task is
    failed with the error and persisted, added to the dead letter queue with
    reason max retries exceeded (which moves it to dead_letter), and the
    original message is acknowledged. *)
Theorem handleTaskFailure_settles (q : RedisQueue) (t : Task)
    (messageID execErr : string) (env : Env) :
  State_ t = StateRunning ->
  (forall n, Err (reply env n) = None) ->
  let key := ("task:" ++ ID t)%string in
  let stream := (streamPrefix q ++ ":" ++ Priority_String (Priority_ t))%string in
  let ack := XACK stream (consumerGroup q) messageID in
  (CanRetry t = true ->
     let retrying :=
       set_Error execErr
         (set_UpdatedAt (clock env 0%nat) (set_State StateRetrying t)) in
     let pending :=
       set_UpdatedAt (clock env 2%nat)
         (set_ScheduledAt None (set_State StatePending retrying)) in
     run (Pool.handleTaskFailure q t messageID execErr) env = pending
     /\ trace (Pool.handleTaskFailure q t messageID execErr) env
        = [ SET key (TaskJSON retrying) 0;
            SET key (TaskJSON pending) 0;
            XADD stream [("task_id", Text (ID t)); ("type", Text (Type_ t))];
            ack ])
  /\ (CanRetry t = false ->
        let failed :=
          set_Error execErr
            (set_CompletedAt (Some (clock env 0%nat))
               (set_UpdatedAt (clock env 0%nat) (set_State StateFailed t))) in
        let dead :=
          set_CompletedAt (Some (clock env 1%nat))
            (set_UpdatedAt (clock env 1%nat) (set_State StateDeadLetter failed)) in
        run (Pool.handleTaskFailure q t messageID execErr) env = dead
        /\ trace (Pool.handleTaskFailure q t messageID execErr) env
           = [ SET key (TaskJSON failed) (final_ttl q);
               XADD "tasks:dlq"
                 [ ("task_id", Text (ID t)); ("type", Text (Type_ t));
                   ("data", DLQEntryJSON dead "max retries exceeded"
                              (clock env 3%nat) execErr) ];
               SADD "tasks:dlq:set" (ID t);
               ack ]).
Proof.
  intros Hs Hok. cbv zeta. split; intro Hc.
  - unfold Pool.handleTaskFailure. rewrite Hc.
    unfold Queue.UpdateTask, Queue.Enqueue, Queue.Acknowledge,
      Retryer.PrepareForRequeue, StateMachine.Retry, StateMachine.Transition,
      message_ref, StreamName, taskKey, json_Marshal.
    step_m. rewrite Hc. cbn. rewrite Hs. cbn.
    unfold CanRetry in *. cbn. rewrite Hc. cbn.
    rewrite !Hok. cbn. now split.
  - unfold Pool.handleTaskFailure. rewrite Hc.
    unfold Queue.UpdateTask, Queue.Acknowledge, DLQ.Add,
      StateMachine.Fail, StateMachine.MoveToDLQ, StateMachine.Transition,
      StreamName, taskKey, json_Marshal, final_ttl.
    step_m. rewrite Hs. cbn.
    destruct (taskRetentionDays q >? 0); cbn; rewrite !Hok; cbn; now split.
Qed.

Lemma handleTaskFailure_settles_witness :
  trace (Pool.handleTaskFailure example_queue running_task
           "1700000000000-0" "boom") env_ok
  = [ SET "task:7f3c"
        (TaskJSON (set_Error "boom"
                     (set_UpdatedAt 1000 (set_State StateRetrying running_task)))) 0;
      SET "task:7f3c"
        (TaskJSON (set_UpdatedAt 1002
                     (set_ScheduledAt None
                        (set_State StatePending
                           (set_Error "boom"
                              (set_UpdatedAt 1000
                                 (set_State StateRetrying running_task))))))) 0;
      XADD "tasks:high" [("task_id", Text "7f3c"); ("type", Text "echo")];
      XACK "tasks:high" "workers" "1700000000000-0" ]
  /\ State_ (run (Pool.handleTaskFailure example_queue single_retry_task
                    "1700000000000-0" "boom") env_ok) = StateDeadLetter.
Proof.
  split.
  - apply (proj1 (handleTaskFailure_settles example_queue running_task
                    "1700000000000-0" "boom" env_ok eq_refl (fun _ => eq_refl))).
    reflexivity.
  - rewrite (proj1 (proj2 (handleTaskFailure_settles example_queue
                             single_retry_task "1700000000000-0" "boom" env_ok
                             eq_refl (fun _ => eq_refl)) eq_refl)).
    reflexivity.
Defined.

(* ----------------------------------------------------------------- *)
(** *** The worker pool: recovery of orphaned tasks *)

Lemma Transition_frame (now : Time) (to : State) (t : Task) :
  let t' := fst (StateMachine.Transition now to t) in
  Attempts t' = Attempts t /\ Error t' = Error t /\ ID t' = ID t
  /\ Type_ t' = Type_ t /\ Priority_ t' = Priority_ t
  /\ MaxRetries t' = MaxRetries t /\ WorkerID t' = WorkerID t.
Proof.
  unfold StateMachine.Transition.
  destruct (CanTransitionTo (State_ t) to); cbn.
  - destruct (to =? StateRunning); [cbn; repeat split|].
    destruct (_ || _); cbn; repeat split.
  - repeat split.
Qed.

Lemma PrepareForRequeue_requeued (now now' : Time) (t : Task) :
  requeued t (Retryer.PrepareForRequeue now now' t).
Proof.
  unfold requeued, Retryer.PrepareForRequeue, StateMachine.Retry. cbn.
  destruct (negb (CanRetry t)).
  - destruct (Transition_frame now StateDeadLetter t) as (A & E & I & T & P & _).
    repeat split; assumption.
  - destruct (Transition_frame now StateRetrying t) as (A & E & I & T & P & _).
    repeat split; assumption.
Qed.

Lemma recoverTask_result (q : RedisQueue) (t : Task) (messageID : string)
    (env : Env) (w : World) :
  fst (Pool.recoverTask q t messageID env w)
  = Retryer.PrepareForRequeue (clock env (ticks w)) (clock env (S (ticks w))) t.
Proof.
  unfold Pool.recoverTask, Queue.Enqueue, Queue.Acknowledge. step_m.
  destruct (Err (reply env (List.length (log w)))); cbn; [reflexivity|].
  destruct (Err (reply env (List.length (log w ++ _)))); reflexivity.
Qed.

Lemma recover_loop_requeued (q : RedisQueue) (tasks : list Task) :
  forall (i : nat) (messageIDs : list string) (env : Env) (w : World),
    Forall2 requeued tasks (fst (Pool.recover_loop q i tasks messageIDs env w)).
Proof.
  induction tasks as [|t rest IH]; intros i messageIDs env w.
  - cbn. constructor.
  - cbn [Pool.recover_loop]. unfold bind, ret.
    pose proof (recoverTask_result q t (nth i messageIDs "") env w) as Ht.
    destruct (Pool.recoverTask q t (nth i messageIDs "") env w) as [t' w1].
    specialize (IH (S i) messageIDs env w1).
    destruct (Pool.recover_loop q (S i) rest messageIDs env w1) as [rest' w2].
    cbn in *. constructor; [|assumption].
    subst t'. apply PrepareForRequeue_requeued.
Qed.

(** C7, as stated, fails: the task of worker w1 (two attempts, error boom),
    reclaimed by the recovery loop of worker w2, is put back with its two
    attempts and its error; [Requeue], which would reset them, is not what
    the loop calls, and on this task [Requeue] fails. *)
Lemma recoverOrphanedTasks_keeps_attempts :
  map (fun t => (State_ t, Attempts t, Error t))
      (run (Pool.recoverOrphanedTasks example_queue "w2") (env_orphan running_task))
  = [(StatePending, 2, "boom")]
  /\ skipn 6 (trace (Pool.recoverOrphanedTasks example_queue "w2")
                (env_orphan running_task))
     = [ SET "task:7f3c"
           (TaskJSON (Retryer.PrepareForRequeue 1000 1001 running_task)) 0;
         XADD "tasks:high" [("task_id", Text "7f3c"); ("type", Text "echo")];
         XACK "tasks:high" "workers" "1700000000000-0" ]
  /\ Attempts (Retryer.PrepareForRequeue 1000 1001 running_task) <> 0
  /\ snd (StateMachine.Requeue 1000 running_task) = Some ErrInvalidTransition.
Proof.
  vm_compute. repeat split; try reflexivity. intro H. discriminate H.
Qed.

Arguments Retryer.PrepareForRequeue : simpl never.

(** The commands of the recovery of one task, by the answers of the store. *)
Lemma recoverTask_log (q : RedisQueue) (t : Task) (messageID : string)
    (env : Env) (w : World) :
  let n := List.length (log w) in
  let t' := fst (Pool.recoverTask q t messageID env w) in
  let key := ("task:" ++ ID t')%string in
  let stream :=
    (streamPrefix q ++ ":" ++ Priority_String (Priority_ t'))%string in
  let write := SET key (TaskJSON t') 0 in
  let append :=
    XADD stream [("task_id", Text (ID t')); ("type", Text (Type_ t'))] in
  log (snd (Pool.recoverTask q t messageID env w))
  = log w ++ match Err (reply env n), Err (reply env (S n)) with
             | Some _, _ => [write]
             | None, Some _ => [write; append; DEL key]
             | None, None =>
                 [write; append; XACK stream (consumerGroup q) messageID]
             end.
Proof.
  cbv zeta. rewrite recoverTask_result.
  unfold Pool.recoverTask, Queue.Enqueue, Queue.Acknowledge, message_ref,
    StreamName, taskKey, json_Marshal.
  step_m.
  set (t' := Retryer.PrepareForRequeue _ _ t) in *.
  assert (Hlen : forall c : Cmd,
             List.length (log w ++ [c]) = S (List.length (log w))).
  { intro c. rewrite length_app. cbn. lia. }
  destruct (Err (reply env (List.length (log w)))) as [e1|]; cbn;
    [reflexivity|].
  rewrite Hlen.
  destruct (Err (reply env (S (List.length (log w))))) as [e2|]; cbn;
    rewrite <- !app_assoc; reflexivity.
Qed.

(** The commands of the loop, from any task of the list on. *)
Lemma recover_loop_log (q : RedisQueue) (tasks : list Task) :
  forall (i : nat) (messageIDs : list string) (env : Env) (w : World),
    log (snd (Pool.recover_loop q i tasks messageIDs env w))
    = log w ++ requeue_commands q env (List.length (log w)) i
                 (fst (Pool.recover_loop q i tasks messageIDs env w))
                 messageIDs.
Proof.
  induction tasks as [|t rest IH]; intros i messageIDs env w.
  - cbn. now rewrite app_nil_r.
  - cbn [Pool.recover_loop]. unfold bind, ret.
    pose proof (recoverTask_log q t (nth i messageIDs "") env w) as Ht.
    cbv zeta in Ht.
    destruct (Pool.recoverTask q t (nth i messageIDs "") env w) as [t' w1].
    specialize (IH (S i) messageIDs env w1).
    destruct (Pool.recover_loop q (S i) rest messageIDs env w1)
      as [rest' w2].
    cbn [fst snd] in *. rewrite IH, Ht.
    cbn [requeue_commands]. rewrite length_app, <- app_assoc. reflexivity.
Qed.

(** When the store answers every command from the [n]-th on with success,
    each task has its three commands in the list, the acknowledgement being
    that of the message ID with the index of the task. *)
Lemma requeue_commands_success (q : RedisQueue) (env : Env)
    (messageIDs : list string) (recovered : list Task) :
  forall (n i j : nat) (t' : Task),
    (forall k, n <= k -> Err (reply env k) = None)%nat ->
    nth_error recovered j = Some t' ->
    exists before after,
      requeue_commands q env n i recovered messageIDs
      = before
        ++ [ SET ("task:" ++ ID t')%string (TaskJSON t') 0;
             XADD (streamPrefix q ++ ":"
                   ++ Priority_String (Priority_ t'))%string
               [("task_id", Text (ID t')); ("type", Text (Type_ t'))];
             XACK (streamPrefix q ++ ":"
                   ++ Priority_String (Priority_ t'))%string
               (consumerGroup q) (nth (i + j) messageIDs "") ]
        ++ after.
Proof.
  induction recovered as [|t rest IH]; intros n i j t' Hok Hj.
  - destruct j; discriminate Hj.
  - cbn [requeue_commands].
    rewrite (Hok n) by lia. rewrite (Hok (S n)) by lia.
    destruct j as [|j].
    + cbn in Hj. injection Hj as <-. exists []. eexists.
      rewrite Nat.add_0_r. cbn [app]. reflexivity.
    + cbn in Hj.
      destruct (IH (n + 3)%nat (S i) j t') as (before & after & E).
      * intros k Hk. apply Hok. lia.
      * exact Hj.
      * cbn [List.length]. rewrite E.
        replace (S i + j)%nat with (i + S j)%nat by lia.
        eexists (_ :: _ :: _ :: before). exists after. reflexivity.
Qed.

(** C7, amended: every task reclaimed by the recovery loop is prepared by
    [PrepareForRequeue], not by [Requeue]: in memory it ends in state
    pending with its schedule cleared and with the attempts and the error of
    the reclaimed record.  After the claim the loop sends, task by task and
    in the order of the claim, the write of the record of the prepared
    task, the append of a reference to the stream of its priority and the
    acknowledgement of its old message, the one with the index of the task
    among the message IDs of the claim; when the record cannot be written,
    or the append fails (the record is then deleted), the old message is not
    acknowledged and the loop goes on with the next task. *)
Theorem recoverOrphanedTasks_requeues (q : RedisQueue) (id : string) (env : Env) :
  let claimed := fst (run (Queue.ClaimOrphanedTasks q id) env) in
  let recovered := run (Pool.recoverOrphanedTasks q id) env in
  Forall2 requeued (fst claimed) recovered
  /\ trace (Pool.recoverOrphanedTasks q id) env
     = trace (Queue.ClaimOrphanedTasks q id) env
       ++ requeue_commands q env
            (List.length (trace (Queue.ClaimOrphanedTasks q id) env)) 0
            recovered (snd claimed)
  /\ ((forall n, List.length (trace (Queue.ClaimOrphanedTasks q id) env) <= n ->
         Err (reply env n) = None)%nat ->
      forall i t',
        nth_error recovered i = Some t' ->
        exists before after,
          trace (Pool.recoverOrphanedTasks q id) env
          = before
            ++ [ SET ("task:" ++ ID t')%string (TaskJSON t') 0;
                 XADD (streamPrefix q ++ ":"
                       ++ Priority_String (Priority_ t'))%string
                   [("task_id", Text (ID t')); ("type", Text (Type_ t'))];
                 XACK (streamPrefix q ++ ":"
                       ++ Priority_String (Priority_ t'))%string
                   (consumerGroup q) (nth i (snd claimed) "") ]
            ++ after).
Proof.
  cbv zeta.
  unfold run, trace, Pool.recoverOrphanedTasks, Queue.ClaimOrphanedTasks,
    bind, ret.
  destruct (Queue.claim_streams q id priorities [] [] env start)
    as [[tasks messageIDs] w1].
  cbn [fst snd].
  pose proof (recover_loop_log q tasks 0 messageIDs env w1) as Hlog.
  split; [apply recover_loop_requeued|].
  split; [exact Hlog|].
  intros Hok i t' Hi. rewrite Hlog.
  destruct (requeue_commands_success q env messageIDs
              (fst (Pool.recover_loop q 0 tasks messageIDs env w1))
              (List.length (log w1)) 0 i t' Hok Hi)
    as (before & after & E).
  rewrite E. exists (log w1 ++ before), after.
  rewrite <- app_assoc. reflexivity.
Qed.

(** The task of worker w1 is reclaimed by worker w2: after the six commands
    of the claim come the write, the append and the acknowledgement of the
    claimed message. *)
Lemma recoverOrphanedTasks_requeues_witness :
  trace (Pool.recoverOrphanedTasks example_queue "w2") (env_orphan running_task)
  = trace (Queue.ClaimOrphanedTasks example_queue "w2")
      (env_orphan running_task)
    ++ [ SET "task:7f3c"
           (TaskJSON (Retryer.PrepareForRequeue 1000 1001 running_task)) 0;
         XADD "tasks:high" [("task_id", Text "7f3c"); ("type", Text "echo")];
         XACK "tasks:high" "workers" "1700000000000-0" ].
Proof.
  rewrite (proj1 (proj2 (recoverOrphanedTasks_requeues example_queue "w2"
                           (env_orphan running_task)))).
  vm_compute. reflexivity.
Defined.


(* ----------------------------------------------------------------- *)
(** *** The acknowledgement of a failed execution *)

(** A concrete list of commands as a prefix followed by its last command. *)
Ltac split_last :=
  first [ exists (@nil Cmd); reflexivity
        | eexists [_]; reflexivity
        | eexists [_; _]; reflexivity
        | eexists [_; _; _]; reflexivity
        | eexists [_; _; _; _]; reflexivity
        | eexists [_; _; _; _; _]; reflexivity ].

(** Whatever the state of the task and whatever the store answers, the last
    command of [handleTaskFailure] acknowledges the original message on the
    stream of the task's priority. *)
Lemma handleTaskFailure_always_acks (q : RedisQueue) (t : Task)
    (messageID execErr : string) (env : Env) :
  exists cmds,
    trace (Pool.handleTaskFailure q t messageID execErr) env
    = cmds ++ [XACK (StreamName (Priority_ t) (streamPrefix q))
                    (consumerGroup q) messageID].
Proof.
  unfold Pool.handleTaskFailure.
  destruct (CanRetry t) eqn:Hc.
  - pose proof (PrepareForRequeue_requeued (clock env 1%nat) (clock env 2%nat)
                  (set_Error execErr (fst (StateMachine.Retry (clock env 0%nat) t))))
      as (_ & _ & _ & _ & _ & _ & Hp).
    assert (Hp0 : Priority_ (fst (StateMachine.Retry (clock env 0%nat) t))
                  = Priority_ t).
    { unfold StateMachine.Retry. destruct (negb (CanRetry t));
        apply Transition_frame. }
    cbn in Hp. rewrite Hp0 in Hp.
    unfold Queue.UpdateTask, Queue.Enqueue, Queue.Acknowledge. step_m.
    destruct (IsFinal _ && _); cbn; rewrite Hp;
      destruct (Err (reply env 1%nat)); cbn;
      try destruct (Err (reply env 2%nat)); cbn;
      split_last.
  - unfold Queue.UpdateTask, Queue.Acknowledge, DLQ.Add, StateMachine.Fail,
      StateMachine.MoveToDLQ, StateMachine.Transition.
    step_m.
    destruct (CanTransitionTo (State_ t) StateFailed); cbn;
      try destruct (CanTransitionTo (State_ t) StateDeadLetter); cbn;
      try destruct (IsFinal (State_ t) && _); cbn;
      destruct (taskRetentionDays q >? 0); cbn;
      destruct (Err (reply env 1%nat)); cbn;
      split_last.
Qed.

(* ================================================================= *)
(** ** Further properties of the task package *)

Lemma In_all_states (s : State) :
  In s all_states <-> 0 <= s <= 7.
Proof.
  unfold all_states, StatePending, StateScheduled, StateRunning,
    StateCompleted, StateFailed, StateRetrying, StateCancelled, StateDeadLetter.
  cbn. lia.
Qed.

(** X1: the names of the eight states round-trip through [State_String] and
    [ParseState] in both directions; an integer that names no state prints
    as unknown and parses back as pending. *)
Theorem State_names_round_trip (s : State) (name : string) :
  (In s all_states -> ParseState (State_String s) = s)
  /\ (~ In s all_states ->
      State_String s = "unknown" /\ ParseState (State_String s) = StatePending)
  /\ (In name (map State_String all_states) ->
      State_String (ParseState name) = name).
Proof.
  split; [|split].
  - intro H. cbn in H.
    repeat (destruct H as [H|H]; [subst s; reflexivity|]). contradiction.
  - intro H. rewrite In_all_states in H.
    assert (E : State_String s = "unknown").
    { unfold State_String, StatePending, StateScheduled, StateRunning,
        StateCompleted, StateFailed, StateRetrying, StateCancelled,
        StateDeadLetter.
      repeat match goal with
             | |- context [s =? ?k] =>
                 destruct (Z.eqb_spec s k); [exfalso; lia|]
             end.
      reflexivity. }
    rewrite E. split; reflexivity.
  - intro H. cbn in H.
    repeat (destruct H as [H|H]; [subst name; reflexivity|]). contradiction.
Qed.

Lemma State_names_round_trip_witness :
  ParseState (State_String StateDeadLetter) = StateDeadLetter
  /\ ParseState (State_String 99) = StatePending
  /\ State_String (ParseState "retrying") = "retrying".
Proof.
  split; [|split].
  - apply (proj1 (State_names_round_trip StateDeadLetter "")).
    rewrite In_all_states. unfold StateDeadLetter. lia.
  - apply (proj1 (proj2 (State_names_round_trip 99 ""))).
    rewrite In_all_states. lia.
  - apply (proj2 (proj2 (State_names_round_trip 0 "retrying"))).
    cbn. do 5 right. left. reflexivity.
Defined.

(** X2: the names of the four priorities round-trip through
    [Priority_String] and [ParsePriority] in both directions; any other
    integer prints as unknown, and any other name parses as normal. *)
Theorem Priority_names_round_trip (p : Priority) (name : string) :
  (In p priorities -> ParsePriority (Priority_String p) = p)
  /\ (~ In p priorities ->
      Priority_String p = "unknown"
      /\ ParsePriority (Priority_String p) = PriorityNormal)
  /\ (In name (map Priority_String priorities) ->
      Priority_String (ParsePriority name) = name)
  /\ (~ In name (map Priority_String priorities) ->
      ParsePriority name = PriorityNormal).
Proof.
  split; [|split; [|split]].
  - intro H. cbn in H.
    repeat (destruct H as [H|H]; [subst p; reflexivity|]). contradiction.
  - intro H.
    assert (R : ~ 0 <= p <= 3).
    { intro R. apply H. unfold priorities, PriorityCritical, PriorityHigh,
        PriorityNormal, PriorityLow. cbn. lia. }
    assert (E : Priority_String p = "unknown").
    { unfold Priority_String, PriorityCritical, PriorityHigh, PriorityNormal,
        PriorityLow.
      repeat match goal with
             | |- context [p =? ?k] =>
                 destruct (Z.eqb_spec p k); [exfalso; lia|]
             end.
      reflexivity. }
    rewrite E. split; reflexivity.
  - intro H. cbn in H.
    repeat (destruct H as [H|H]; [subst name; reflexivity|]). contradiction.
  - intro H. unfold ParsePriority. cbn in H.
    repeat match goal with
           | |- context [String.eqb name ?k] =>
               destruct (String.eqb_spec name k); [exfalso; apply H; subst; tauto|]
           end.
    reflexivity.
Qed.

Lemma Priority_names_round_trip_witness :
  ParsePriority (Priority_String PriorityCritical) = PriorityCritical
  /\ ParsePriority (Priority_String 4) = PriorityNormal
  /\ Priority_String (ParsePriority "high") = "high"
  /\ ParsePriority "urgent" = PriorityNormal.
Proof.
  split; [|split; [|split]].
  - apply (proj1 (Priority_names_round_trip PriorityCritical "")).
    cbn. left. reflexivity.
  - apply (proj1 (proj2 (Priority_names_round_trip 4 ""))).
    cbn. intro H. repeat (destruct H as [H|H]; [discriminate H|]). exact H.
  - apply (proj1 (proj2 (proj2 (Priority_names_round_trip 0 "high")))).
    cbn. right. left. reflexivity.
  - apply (proj2 (proj2 (proj2 (Priority_names_round_trip 0 "urgent")))).
    cbn. intro H. repeat (destruct H as [H|H]; [discriminate H|]). exact H.
Defined.

Lemma PriorityFromInt_range (i : Z) : 0 <= PriorityFromInt i <= 3.
Proof.
  unfold PriorityFromInt, PriorityNormal.
  destruct (i <? 0) eqn:E1; cbn; [lia|].
  destruct (i >? 3) eqn:E2; [lia|].
  apply Z.ltb_ge in E1. rewrite Z.gtb_ltb in E2. apply Z.ltb_ge in E2. lia.
Qed.

Lemma wrap64_small (z : Z) : - 2 ^ 63 <= z < 2 ^ 63 -> wrap64 z = z.
Proof.
  intro H. unfold wrap64.
  rewrite Z.mod_small by lia. lia.
Qed.

(** X3: whatever the request holds, the task built by [FromRequest] is
    pending with no attempts, has one of the four priorities (so its stream
    is one of the four streams of the queue), allows at least one retry, and
    has a positive timeout as long as the requested seconds fit a duration
    in nanoseconds. *)
Theorem FromRequest_normalises (uuid : string) (now : Time)
    (req : CreateTaskRequest) (prefix : string) :
  let t := FromRequest uuid now req in
  ID t = uuid
  /\ State_ t = StatePending
  /\ Attempts t = 0
  /\ In (Priority_ t) priorities
  /\ In (StreamName (Priority_ t) prefix)
        (map (fun p => StreamName p prefix) priorities)
  /\ 1 <= MaxRetries t
  /\ CanRetry t = true
  /\ (ReqTimeout req <= 9223372036 -> 0 < Timeout t).
Proof.
  cbv zeta.
  assert (Hp : Priority_ (FromRequest uuid now req)
               = PriorityFromInt (ReqPriority req)).
  { unfold FromRequest.
    destruct (ReqMaxRetries req >? 0), (ReqTimeout req >? 0),
      (ReqScheduledAt req), (ReqMetadata req); reflexivity. }
  assert (Hin : In (Priority_ (FromRequest uuid now req)) priorities).
  { rewrite Hp. pose proof (PriorityFromInt_range (ReqPriority req)) as R.
    unfold priorities, PriorityCritical, PriorityHigh, PriorityNormal,
      PriorityLow. cbn. lia. }
  assert (Hm : 1 <= MaxRetries (FromRequest uuid now req)).
  { unfold FromRequest.
    destruct (ReqMaxRetries req >? 0) eqn:E, (ReqTimeout req >? 0),
      (ReqScheduledAt req), (ReqMetadata req); cbn;
      try lia; rewrite Z.gtb_ltb in E; apply Z.ltb_lt in E; lia. }
  assert (Ha : Attempts (FromRequest uuid now req) = 0).
  { unfold FromRequest.
    destruct (ReqMaxRetries req >? 0), (ReqTimeout req >? 0),
      (ReqScheduledAt req), (ReqMetadata req); reflexivity. }
  repeat split.
  - unfold FromRequest.
    destruct (ReqMaxRetries req >? 0), (ReqTimeout req >? 0),
      (ReqScheduledAt req), (ReqMetadata req); reflexivity.
  - unfold FromRequest.
    destruct (ReqMaxRetries req >? 0), (ReqTimeout req >? 0),
      (ReqScheduledAt req), (ReqMetadata req); reflexivity.
  - exact Ha.
  - exact Hin.
  - apply (in_map (fun p => StreamName p prefix)). exact Hin.
  - exact Hm.
  - unfold CanRetry. rewrite Ha. apply Z.ltb_lt. lia.
  - intro Hs. unfold FromRequest.
    destruct (ReqTimeout req >? 0) eqn:E.
    + rewrite Z.gtb_ltb in E. apply Z.ltb_lt in E.
      assert (W : wrap64 (ReqTimeout req * Second) = ReqTimeout req * Second).
      { apply wrap64_small. unfold Second. lia. }
      destruct (ReqMaxRetries req >? 0), (ReqScheduledAt req),
        (ReqMetadata req); cbn; rewrite W; unfold Second; lia.
    + destruct (ReqMaxRetries req >? 0), (ReqScheduledAt req),
        (ReqMetadata req); cbn; reflexivity.
Qed.

Lemma FromRequest_normalises_witness :
  0 < Timeout (FromRequest "7f3c" 100
                 (mkCreateTaskRequest "echo" None 9 0 30 None None)).
Proof.
  apply (proj2 (proj2 (proj2 (proj2 (proj2 (proj2 (proj2
           (FromRequest_normalises "7f3c" 100
              (mkCreateTaskRequest "echo" None 9 0 30 None None) "tasks")))))))).
  cbn. lia.
Defined.

(** X4: shape of the transition table: no state moves to itself; completed
    and cancelled have no successor; a task leaves a final state only from
    failed or dead_letter; running is entered only from pending, scheduled
    or retrying; no state is both final and active; and only the eight
    states take part in a transition. *)
Theorem transition_table_shape (s t : State) :
  CanTransitionTo s s = false
  /\ CanTransitionTo StateCompleted t = false
  /\ CanTransitionTo StateCancelled t = false
  /\ IsFinal s && IsActive s = false
  /\ (CanTransitionTo s t = true ->
      In s all_states /\ In t all_states
      /\ (IsFinal s = true -> s = StateFailed \/ s = StateDeadLetter)
      /\ (t = StateRunning -> startable s)).
Proof.
  split; [|split; [|split; [|split]]].
  - rewrite CanTransitionTo_in_spec_table.
    destruct (in_spec_table s s) eqn:E; [|reflexivity].
    apply in_spec_table_In in E. cbn in E.
    repeat (destruct E as [E|E]; [inversion E; subst; discriminate|]).
    contradiction.
  - rewrite CanTransitionTo_in_spec_table.
    destruct (in_spec_table StateCompleted t) eqn:E; [|reflexivity].
    apply in_spec_table_In in E. cbn in E.
    repeat (destruct E as [E|E]; [discriminate E|]). contradiction.
  - rewrite CanTransitionTo_in_spec_table.
    destruct (in_spec_table StateCancelled t) eqn:E; [|reflexivity].
    apply in_spec_table_In in E. cbn in E.
    repeat (destruct E as [E|E]; [discriminate E|]). contradiction.
  - unfold IsFinal, IsActive, StateCompleted, StateFailed, StateCancelled,
      StateDeadLetter, StateRunning, StateRetrying.
    destruct (Z.eqb_spec s 3), (Z.eqb_spec s 4), (Z.eqb_spec s 6),
      (Z.eqb_spec s 7), (Z.eqb_spec s 2), (Z.eqb_spec s 5);
      try reflexivity; lia.
  - rewrite CanTransitionTo_in_spec_table. intro E.
    apply in_spec_table_In in E. unfold startable. cbn in E.
    repeat (destruct E as [E|E];
            [inversion E; subst; cbn;
             (split; [tauto|]); (split; [tauto|]);
             (split; [intro K; try discriminate K; tauto
                     |intro K; try discriminate K; tauto])|]).
    contradiction.
Qed.

Lemma transition_table_shape_witness :
  In StateFailed all_states /\ In StatePending all_states.
Proof.
  destruct (proj2 (proj2 (proj2 (proj2
              (transition_table_shape StateFailed StatePending)))) eq_refl)
    as (H1 & H2 & _).
  split; assumption.
Defined.

Lemma CanTransitionTo_running (s : State) :
  CanTransitionTo s StateRunning = true <-> startable s.
Proof.
  unfold startable. split.
  - rewrite CanTransitionTo_in_spec_table. intro E.
    apply in_spec_table_In in E. cbn in E.
    repeat (destruct E as [E|E];
            [inversion E; subst; try discriminate; tauto|]).
    contradiction.
  - intros [-> | [-> | ->]]; reflexivity.
Qed.

Lemma int_incr_small (z : Z) : 0 <= z < MaxInt -> int_incr z = z + 1.
Proof.
  unfold MaxInt, int_incr. intro H. apply wrap64_small. lia.
Qed.

(** X5: [Start] succeeds exactly from pending, scheduled and retrying; it
    then leaves the task running for the given worker, stamps the start
    time, counts one more attempt (wrapping at the largest int) and touches
    neither the error nor the completion time. *)
Theorem Start_spec (now now' : Time) (w : string) (t : Task) :
  let t' := fst (StateMachine.Start now now' w t) in
  (snd (StateMachine.Start now now' w t) = None <-> startable (State_ t))
  /\ (startable (State_ t) ->
      State_ t' = StateRunning
      /\ WorkerID t' = w
      /\ StartedAt t' = Some now
      /\ UpdatedAt t' = now'
      /\ CompletedAt t' = CompletedAt t
      /\ Error t' = Error t
      /\ Attempts t' = int_incr (Attempts t)
      /\ (0 <= Attempts t < MaxInt -> Attempts t' = Attempts t + 1)).
Proof.
  cbv zeta. unfold StateMachine.Start, StateMachine.Transition.
  pose proof (CanTransitionTo_running (State_ t)) as Hr.
  destruct (CanTransitionTo (State_ t) StateRunning); cbn.
  - split.
    + split; [intros _; now apply Hr | reflexivity].
    + intros _. repeat split. apply int_incr_small.
  - split.
    + split; [discriminate|]. intro H. apply Hr in H. discriminate H.
    + intro H. apply Hr in H. discriminate H.
Qed.

Lemma Start_spec_witness :
  Attempts (fst (StateMachine.Start 101 102 "w1" example_task)) = 1.
Proof.
  refine (proj2 (proj2 (proj2 (proj2 (proj2 (proj2 (proj2
            (proj2 (Start_spec 101 102 "w1" example_task) _))))))) _).
  - left. reflexivity.
  - cbn. unfold MaxInt. lia.
Defined.

(** X6: a startable task that is started and then completed ends in state
    completed with one more attempt, the result stored, the error cleared
    and both times stamped, the start not after the completion when the
    clock does not go back; after that every operation of the state machine
    is refused with [ErrInvalidTransition]. *)
Theorem Start_then_Complete (now1 now2 now3 : Time) (w : string)
    (r : JSONObject) (t : Task) :
  startable (State_ t) ->
  0 <= Attempts t < MaxInt ->
  now1 <= now3 ->
  let t1 := fst (StateMachine.Start now1 now2 w t) in
  let t2 := fst (StateMachine.Complete now3 r t1) in
  snd (StateMachine.Start now1 now2 w t) = None
  /\ snd (StateMachine.Complete now3 r t1) = None
  /\ State_ t2 = StateCompleted
  /\ Attempts t2 = Attempts t + 1
  /\ Result t2 = r
  /\ Error t2 = ""
  /\ WorkerID t2 = w
  /\ (exists s c, StartedAt t2 = Some s /\ CompletedAt t2 = Some c /\ s <= c)
  /\ (forall now now' w' r' msg,
        snd (StateMachine.Start now now' w' t2) = Some ErrInvalidTransition
        /\ snd (StateMachine.Complete now r' t2) = Some ErrInvalidTransition
        /\ snd (StateMachine.Fail now msg t2) = Some ErrInvalidTransition
        /\ snd (StateMachine.Retry now t2) = Some ErrInvalidTransition
        /\ snd (StateMachine.Cancel now t2) = Some ErrInvalidTransition
        /\ snd (StateMachine.MoveToDLQ now t2) = Some ErrInvalidTransition
        /\ snd (StateMachine.Requeue now t2) = Some ErrInvalidTransition).
Proof.
  intros Hs Ha Hc. cbv zeta.
  apply CanTransitionTo_running in Hs.
  unfold StateMachine.Start, StateMachine.Complete, StateMachine.Transition.
  rewrite Hs. cbn.
  split; [reflexivity|]. split; [reflexivity|]. split; [reflexivity|].
  split; [now apply int_incr_small|]. split; [reflexivity|].
  split; [reflexivity|]. split; [reflexivity|]. split.
  - exists now1, now3. repeat split. exact Hc.
  - intros now now' w' r' msg.
    unfold StateMachine.Start, StateMachine.Fail, StateMachine.Retry,
      StateMachine.Cancel, StateMachine.MoveToDLQ, StateMachine.Requeue,
      StateMachine.Transition. cbn.
    destruct (negb (CanRetry _)); cbn; repeat split.
Qed.

Lemma Start_then_Complete_witness :
  State_ (fst (StateMachine.Complete 103 (Some [])
                 (fst (StateMachine.Start 101 102 "w1" example_task))))
  = StateCompleted.
Proof.
  refine (proj1 (proj2 (proj2
            (Start_then_Complete 101 102 103 "w1" (Some []) example_task _ _ _)))).
  - left. reflexivity.
  - cbn. unfold MaxInt. lia.
  - lia.
Defined.

(** X7: [Retry] on a failed task always succeeds: the task goes to retrying
    when it has retries left and otherwise to dead_letter, with the
    completion time stamped; on a running task without retries left it is
    refused and leaves the task as it was. *)
Theorem Retry_spec (now : Time) (t : Task) :
  let t' := fst (StateMachine.Retry now t) in
  (State_ t = StateFailed ->
     snd (StateMachine.Retry now t) = None
     /\ UpdatedAt t' = now
     /\ Attempts t' = Attempts t
     /\ Error t' = Error t
     /\ (Attempts t < MaxRetries t ->
         State_ t' = StateRetrying /\ CompletedAt t' = CompletedAt t)
     /\ (MaxRetries t <= Attempts t ->
         State_ t' = StateDeadLetter /\ CompletedAt t' = Some now))
  /\ (State_ t = StateRunning -> MaxRetries t <= Attempts t ->
      StateMachine.Retry now t = (t, Some ErrInvalidTransition)).
Proof.
  cbv zeta. unfold StateMachine.Retry, StateMachine.Transition, CanRetry.
  split.
  - intro Hs. rewrite Hs.
    destruct (Z.ltb_spec (Attempts t) (MaxRetries t)); cbn;
      repeat split; intros; try reflexivity; lia.
  - intros Hs Hn. rewrite Hs.
    destruct (Z.ltb_spec (Attempts t) (MaxRetries t)); [lia|]. reflexivity.
Qed.

Lemma Retry_spec_witness :
  State_ (fst (StateMachine.Retry 140
                 (fst (StateMachine.Fail 135 "boom" running_task))))
  = StateRetrying
  /\ snd (StateMachine.Retry 140 single_retry_task) = Some ErrInvalidTransition.
Proof.
  split.
  - refine (proj1 (proj1 (proj2 (proj2 (proj2 (proj2
              (proj1 (Retry_spec 140
                        (fst (StateMachine.Fail 135 "boom" running_task)))
                 _))))) _)).
    + reflexivity.
    + cbn. lia.
  - rewrite (proj2 (Retry_spec 140 single_retry_task)).
    + reflexivity.
    + reflexivity.
    + cbn. lia.
Defined.

Lemma CanTransitionTo_pending (s : State) :
  CanTransitionTo s StatePending = true
  <-> s = StateScheduled \/ s = StateFailed \/ s = StateDeadLetter.
Proof.
  split.
  - rewrite CanTransitionTo_in_spec_table. intro E.
    apply in_spec_table_In in E. cbn in E.
    repeat (destruct E as [E|E];
            [inversion E; subst; try discriminate; tauto|]).
    contradiction.
  - intros [-> | [-> | ->]]; reflexivity.
Qed.

(** X8: [Requeue] succeeds exactly from scheduled, failed and dead_letter;
    it then leaves a pending task with no worker, no attempts, no error and
    no start or completion time, which a worker can start as its first
    attempt. *)
Theorem Requeue_spec (now : Time) (t : Task) :
  let t' := fst (StateMachine.Requeue now t) in
  (snd (StateMachine.Requeue now t) = None
   <-> State_ t = StateScheduled \/ State_ t = StateFailed
       \/ State_ t = StateDeadLetter)
  /\ (snd (StateMachine.Requeue now t) = None ->
      State_ t' = StatePending
      /\ WorkerID t' = ""
      /\ Attempts t' = 0
      /\ Error t' = ""
      /\ StartedAt t' = None
      /\ CompletedAt t' = None
      /\ UpdatedAt t' = now
      /\ forall now1 now2 w,
           snd (StateMachine.Start now1 now2 w t') = None
           /\ Attempts (fst (StateMachine.Start now1 now2 w t')) = 1).
Proof.
  cbv zeta. unfold StateMachine.Requeue, StateMachine.Transition. cbn.
  pose proof (CanTransitionTo_pending (State_ t)) as Hp.
  destruct (CanTransitionTo (State_ t) StatePending); cbn.
  - split.
    + split; [intros _; now apply Hp | reflexivity].
    + intros _. repeat split.
  - split.
    + split; [discriminate|]. intro H. apply Hp in H. discriminate H.
    + discriminate.
Qed.

Lemma Requeue_spec_witness :
  Attempts (fst (StateMachine.Requeue 150
                   (fst (StateMachine.Fail 135 "boom" running_task)))) = 0.
Proof.
  refine (proj1 (proj2 (proj2
            (proj2 (Requeue_spec 150
                      (fst (StateMachine.Fail 135 "boom" running_task))) _)))).
  reflexivity.
Defined.

Lemma Transition_same_identity (now : Time) (to : State) (t : Task) :
  same_identity t (fst (StateMachine.Transition now to t)).
Proof.
  unfold same_identity, StateMachine.Transition.
  destruct (CanTransitionTo (State_ t) to); cbn.
  - destruct (to =? StateRunning); [cbn; repeat split|].
    destruct (_ || _); cbn; repeat split.
  - repeat split.
Qed.

(** X9: no operation of the state machine, nor [IncrementAttempts], nor
    [PrepareForRequeue], writes the identity of a task (id, type, payload,
    priority, max_retries, created_at, timeout, metadata), whether it
    succeeds or fails; and the attempts are changed by [Start] and
    [Requeue] only. *)
Theorem operations_keep_identity (now now' : Time) (w msg : string)
    (r : JSONObject) (t : Task) :
  same_identity t (fst (StateMachine.Start now now' w t))
  /\ same_identity t (fst (StateMachine.Complete now r t))
  /\ same_identity t (fst (StateMachine.Fail now msg t))
  /\ same_identity t (fst (StateMachine.Retry now t))
  /\ same_identity t (fst (StateMachine.Cancel now t))
  /\ same_identity t (fst (StateMachine.MoveToDLQ now t))
  /\ same_identity t (fst (StateMachine.Requeue now t))
  /\ same_identity t (IncrementAttempts now t)
  /\ same_identity t (Retryer.PrepareForRequeue now now' t)
  /\ Attempts (fst (StateMachine.Complete now r t)) = Attempts t
  /\ Attempts (fst (StateMachine.Fail now msg t)) = Attempts t
  /\ Attempts (fst (StateMachine.Retry now t)) = Attempts t
  /\ Attempts (fst (StateMachine.Cancel now t)) = Attempts t
  /\ Attempts (fst (StateMachine.MoveToDLQ now t)) = Attempts t
  /\ Attempts (Retryer.PrepareForRequeue now now' t) = Attempts t.
Proof.
  assert (HT : forall to, same_identity t (fst (StateMachine.Transition now to t))
                          /\ Attempts (fst (StateMachine.Transition now to t))
                             = Attempts t).
  { intro to. split; [apply Transition_same_identity | apply Transition_frame]. }
  assert (HR : same_identity t (fst (StateMachine.Retry now t))
               /\ Attempts (fst (StateMachine.Retry now t)) = Attempts t).
  { unfold StateMachine.Retry. destruct (negb (CanRetry t)); apply HT. }
  repeat match goal with |- _ /\ _ => split end.
  - unfold StateMachine.Start.
    destruct (HT StateRunning) as [I _].
    destruct (StateMachine.Transition now StateRunning t) as [t1 [e|]];
      cbn in *; exact I.
  - unfold StateMachine.Complete.
    destruct (HT StateCompleted) as [I _].
    destruct (StateMachine.Transition now StateCompleted t) as [t1 [e|]];
      cbn in *; exact I.
  - unfold StateMachine.Fail.
    destruct (HT StateFailed) as [I _].
    destruct (StateMachine.Transition now StateFailed t) as [t1 [e|]];
      cbn in *; exact I.
  - apply HR.
  - apply HT.
  - apply HT.
  - unfold StateMachine.Requeue.
    apply (Transition_same_identity now StatePending
             (set_CompletedAt None (set_StartedAt None (set_Error ""
                (set_Attempts 0 (set_WorkerID "" t)))))).
  - unfold same_identity. cbn. repeat split.
  - destruct HR as [I _]. unfold Retryer.PrepareForRequeue. exact I.
  - unfold StateMachine.Complete.
    destruct (HT StateCompleted) as [_ A].
    destruct (StateMachine.Transition now StateCompleted t) as [t1 [e|]];
      cbn in *; exact A.
  - unfold StateMachine.Fail.
    destruct (HT StateFailed) as [_ A].
    destruct (StateMachine.Transition now StateFailed t) as [t1 [e|]];
      cbn in *; exact A.
  - apply HR.
  - apply HT.
  - apply HT.
  - destruct HR as [_ A]. unfold Retryer.PrepareForRequeue. exact A.
Qed.

(* ================================================================= *)
(** ** Further properties of the retry policy *)

(** X12: the retry information agrees with the policy: the next retry time
    is the clock plus the reported delay, which is the backoff of the
    attempts made; and, for attempt counts within 2^62 of zero, the task
    should be retried exactly when attempts are left, the number of attempts
    left being max_attempts - attempts, negative once the maximum is
    passed. *)
Theorem GetRetryInfo_consistent (rt : Runtime) (p : RetryPolicy) (now : Time)
    (rnd : float64) (t : Task) :
  - 2 ^ 62 <= MaxAttempts p < 2 ^ 62 ->
  - 2 ^ 62 <= Attempts t < 2 ^ 62 ->
  let info := GetRetryInfo rt p now rnd t in
  NextRetryAt info = now + BackoffDelay info
  /\ NextRetryAt info = NextRetryTime rt p now rnd t
  /\ BackoffDelay info = CalculateBackoff rt p (Attempts t) rnd
  /\ AttemptsLeft info = MaxAttempts p - Attempts t
  /\ TotalAttempts info = MaxAttempts p
  /\ (Info_ShouldRetry info = true <-> 0 < AttemptsLeft info)
  /\ Info_ShouldRetry info = ShouldRetry p t.
Proof.
  intros Hm Ha. cbv zeta.
  assert (W : wrap64 (MaxAttempts p - Attempts t) = MaxAttempts p - Attempts t).
  { apply wrap64_small. lia. }
  unfold GetRetryInfo, NextRetryTime, ShouldRetry. cbn. rewrite W.
  repeat split; try reflexivity.
  - intro H. apply Z.ltb_lt in H. lia.
  - intro H. apply Z.ltb_lt. lia.
Qed.

Lemma GetRetryInfo_consistent_witness :
  AttemptsLeft (GetRetryInfo go_amd64 DefaultRetryPolicy 1000 0%float
                  running_task)
  = 1.
Proof.
  refine (proj1 (proj2 (proj2 (proj2
            (GetRetryInfo_consistent go_amd64 DefaultRetryPolicy 1000 0%float
               running_task _ _))))); cbn; lia.
Defined.

(** X13: [ScheduleRetry] either fails and leaves the task as it was, or
    stamps the retry time: the clock plus the backoff of the attempts made,
    which is not before the clock when the initial backoff is not negative
    and the float backoff has an integer part that a duration holds; on a
    failed task it always succeeds, and a task without retries left is then
    moved to dead_letter and still given a retry time. *)
Theorem ScheduleRetry_spec (rt : Runtime) (p : RetryPolicy) (now now' : Time)
    (rnd : float64) (t : Task) :
  let t' := fst (Retryer.ScheduleRetry rt p now now' rnd t) in
  (forall e, snd (Retryer.ScheduleRetry rt p now now' rnd t) = Some e -> t' = t)
  /\ (snd (Retryer.ScheduleRetry rt p now now' rnd t) = None ->
      ScheduledAt t' = Some (now' + CalculateBackoff rt p (Attempts t) rnd)
      /\ (0 <= InitialBackoff p ->
          int64_of_float64 (backoff_float64 rt p (Attempts t) rnd) <> None ->
          exists at_, ScheduledAt t' = Some at_ /\ now' <= at_))
  /\ (State_ t = StateFailed ->
      snd (Retryer.ScheduleRetry rt p now now' rnd t) = None
      /\ (Attempts t < MaxRetries t -> State_ t' = StateRetrying)
      /\ (MaxRetries t <= Attempts t -> State_ t' = StateDeadLetter)).
Proof.
  cbv zeta. unfold Retryer.ScheduleRetry.
  split; [|split].
  - intros e.
    destruct (StateMachine.Retry now t) as [t1 [e1|]] eqn:E; cbn.
    + intros _. pose proof (Retry_error_unchanged now t e1) as H.
      rewrite E in H. cbn in H. now apply H.
    + discriminate.
  - assert (Ha : Attempts (fst (StateMachine.Retry now t)) = Attempts t).
    { unfold StateMachine.Retry.
      destruct (negb (CanRetry t)); apply Transition_frame. }
    destruct (StateMachine.Retry now t) as [t1 [e1|]] eqn:E; cbn.
    + discriminate.
    + intros _. cbn in Ha. unfold NextRetryTime. rewrite Ha.
      split; [reflexivity|]. intros Hi Hr.
      eexists. split; [reflexivity|].
      pose proof (CalculateBackoff_nonneg rt p (Attempts t) rnd Hi Hr). lia.
  - intro Hs. unfold StateMachine.Retry, StateMachine.Transition, CanRetry.
    rewrite Hs.
    destruct (Z.ltb_spec (Attempts t) (MaxRetries t)); cbn;
      repeat split; intros; try reflexivity; lia.
Qed.

Lemma ScheduleRetry_spec_witness :
  State_ (fst (Retryer.ScheduleRetry go_amd64 DefaultRetryPolicy 140 141 0%float
                 (fst (StateMachine.Fail 135 "boom" running_task))))
  = StateRetrying.
Proof.
  refine (proj1 (proj2 (proj2 (proj2
            (ScheduleRetry_spec go_amd64 DefaultRetryPolicy 140 141 0%float
               (fst (StateMachine.Fail 135 "boom" running_task)))) _)) _).
  - reflexivity.
  - cbn. lia.
Defined.

(* ================================================================= *)
(** ** Further properties of the queue *)

(** X14: [Enqueue] writes the record without expiry and then appends the
    reference to the stream of the task's priority; when the write fails no
    reference is appended; when the append fails the record is deleted
    again; it returns nil exactly when both succeeded. *)
Theorem Enqueue_cases (q : RedisQueue) (t : Task) (env : Env) :
  let key := ("task:" ++ ID t)%string in
  let write := SET key (TaskJSON t) 0 in
  let append :=
    XADD (streamPrefix q ++ ":" ++ Priority_String (Priority_ t))%string
         [("task_id", Text (ID t)); ("type", Text (Type_ t))] in
  (forall e, Err (reply env 0%nat) = Some e ->
     run (Queue.Enqueue q t) env = Some (Errorf "failed to store task data" e)
     /\ trace (Queue.Enqueue q t) env = [write])
  /\ (forall e, Err (reply env 0%nat) = None -> Err (reply env 1%nat) = Some e ->
        run (Queue.Enqueue q t) env
        = Some (Errorf "failed to add task to stream" e)
        /\ trace (Queue.Enqueue q t) env = [write; append; DEL key])
  /\ (Err (reply env 0%nat) = None -> Err (reply env 1%nat) = None ->
        run (Queue.Enqueue q t) env = None
        /\ trace (Queue.Enqueue q t) env = [write; append])
  /\ (run (Queue.Enqueue q t) env = None ->
        Err (reply env 0%nat) = None /\ Err (reply env 1%nat) = None).
Proof.
  cbv zeta.
  unfold Queue.Enqueue, message_ref, StreamName, taskKey, json_Marshal. step_m.
  split; [|split; [|split]].
  - intros e H0. rewrite H0. cbn. now split.
  - intros e H0 H1. rewrite H0. cbn. rewrite H1. cbn. now split.
  - intros H0 H1. rewrite H0. cbn. rewrite H1. cbn. now split.
  - destruct (Err (reply env 0%nat)); cbn; [discriminate|].
    destruct (Err (reply env 1%nat)); cbn; [discriminate|]. now split.
Qed.

Lemma Enqueue_cases_witness :
  trace (Queue.Enqueue example_queue example_task) env_ok
  = [ SET "task:7f3c" (TaskJSON example_task) 0;
      XADD "tasks:high" [("task_id", Text "7f3c"); ("type", Text "echo")] ]
  /\ trace (Queue.Enqueue example_queue example_task) env_timeout
     = [ SET "task:7f3c" (TaskJSON example_task) 0 ].
Proof.
  split.
  - apply (proj1 (proj2 (proj2 (Enqueue_cases example_queue example_task env_ok))));
      reflexivity.
  - apply (proj1 (Enqueue_cases example_queue example_task env_timeout)
             (ErrStore "redis: nil")).
    reflexivity.
Defined.



Lemma dequeue_from_cons (q : RedisQueue) (consumerID : string) (p : Priority)
    (rest : list Priority) :
  dequeue_from q consumerID (p :: rest)
  = (let streamName := StreamName p (streamPrefix q) in
     r <- call (XREADGROUP (consumerGroup q) consumerID [streamName; ">"] 1 0) ;;
     match r with
     | ReplyNil => dequeue_from q consumerID rest
     | ReplyStreams streams =>
         match streams with
         | [] => dequeue_from q consumerID rest
         | first :: _ =>
             match Messages first with
             | [] => dequeue_from q consumerID rest
             | msg :: _ =>
                 match string_value (Values msg) "task_id" with
                 | None =>
                     _ <- call (XACK streamName (consumerGroup q) (MsgID msg)) ;;
                     dequeue_from q consumerID rest
                 | Some taskID =>
                     g <- Queue.GetTask q taskID ;;
                     match g with
                     | inr _ =>
                         _ <- call (XACK streamName (consumerGroup q) (MsgID msg)) ;;
                         dequeue_from q consumerID rest
                     | inl t => ret (Some t, MsgID msg, None)
                     end
                 end
             end
         end
     | ReplyError msg =>
         ret (None, "",
              Some (Errorf ("failed to read from stream " ++ streamName)
                      (ErrStore msg)))
     | _ =>
         ret (None, "",
              Some (Errorf ("failed to read from stream " ++ streamName)
                      (ErrStore "unexpected reply")))
     end).
Proof. reflexivity. Qed.

Arguments dequeue_from : simpl never.
Arguments Queue.GetTask : simpl never.

Lemma GetTask_world (q : RedisQueue) (taskID : string) (env : Env) (w : World) :
  snd (Queue.GetTask q taskID env w)
  = mkWorld (log w ++ [GET (taskKey taskID)]) (ticks w).
Proof.
  unfold Queue.GetTask, bind, ret, call. cbn.
  destruct (reply env (List.length (log w))) as [ | e | | d | r | r | r ];
    try reflexivity.
  destruct (json_Unmarshal d); reflexivity.
Qed.

(** One round of the loop: the read of the stream, possibly the lookup of
    the record and the acknowledgement of a message without one, and then
    either the end of the loop or the next round from the world reached. *)
Lemma dequeue_from_round (q : RedisQueue) (consumerID : string) (p : Priority)
    (rest : list Priority) (env : Env) (w : World) :
  exists cmds,
    let w' := mkWorld (log w
                       ++ XREADGROUP (consumerGroup q) consumerID
                            [StreamName p (streamPrefix q); ">"] 1 0 :: cmds)
                      (ticks w) in
    snd (dequeue_from q consumerID (p :: rest) env w) = w'
    \/ snd (dequeue_from q consumerID (p :: rest) env w)
       = snd (dequeue_from q consumerID rest env w').
Proof.
  rewrite dequeue_from_cons. unfold bind, ret, call. cbn.
  destruct (reply env (List.length (log w))) as [ | e | | d | [|first fs] | r | r ];
    cbn; try (exists []; now left); try (exists []; now right).
  destruct (Messages first) as [|msg msgs]; cbn; [exists []; now right|].
  destruct (string_value (Values msg) "task_id") as [taskID|]; cbn.
  - pose proof (GetTask_world q taskID env
                  (mkWorld (log w
                            ++ [XREADGROUP (consumerGroup q) consumerID
                                  [StreamName p (streamPrefix q); ">"] 1 0])
                           (ticks w))) as Hw.
    destruct (Queue.GetTask q taskID env _) as [[t|e] w0]; cbn in Hw; subst w0;
      cbn.
    + exists [GET (taskKey taskID)]. left.
      now rewrite <- app_assoc.
    + exists [GET (taskKey taskID);
              XACK (StreamName p (streamPrefix q)) (consumerGroup q) (MsgID msg)].
      right. now rewrite <- !app_assoc.
  - exists [XACK (StreamName p (streamPrefix q)) (consumerGroup q) (MsgID msg)].
    right. now rewrite <- app_assoc.
Qed.

(** A run of the loop only appends to the log. *)
Lemma dequeue_from_log_grows (q : RedisQueue) (consumerID : string)
    (ps : list Priority) :
  forall (env : Env) (w : World),
    exists l, log (snd (dequeue_from q consumerID ps env w)) = log w ++ l.
Proof.
  induction ps as [|p rest IH]; intros env w.
  - exists []. unfold dequeue_from, ret. cbn. now rewrite app_nil_r.
  - destruct (dequeue_from_round q consumerID p rest env w) as [cmds [H|H]];
      cbv zeta in H; rewrite H.
    + cbn. eexists. reflexivity.
    + match goal with
      | |- context [dequeue_from q consumerID rest env ?w'] =>
          destruct (IH env w') as [l Hl]
      end.
      rewrite Hl. cbn. rewrite <- app_assoc. eexists. reflexivity.
Qed.

(** A run over a non-empty list of priorities starts with the read of the
    first one. *)
Lemma dequeue_from_first_read (q : RedisQueue) (consumerID : string)
    (p : Priority) (rest : list Priority) (env : Env) (w : World) :
  exists l,
    log (snd (dequeue_from q consumerID (p :: rest) env w))
    = log w
      ++ XREADGROUP (consumerGroup q) consumerID
           [StreamName p (streamPrefix q); ">"] 1 0 :: l.
Proof.
  destruct (dequeue_from_round q consumerID p rest env w) as [cmds [H|H]];
    cbv zeta in H; rewrite H.
  - cbn. eexists. reflexivity.
  - match goal with
    | |- context [dequeue_from q consumerID rest env ?w'] =>
        destruct (dequeue_from_log_grows q consumerID rest env w') as [l Hl]
    end.
    rewrite Hl. cbn. rewrite <- app_assoc. cbn. eexists. reflexivity.
Qed.

(** X16: the non-blocking [Dequeue] reads the streams one at a time in the
    order critical, high, normal, low: when the critical stream delivers a
    message with a readable record, that task is returned and no other
    stream is read; a message whose record is gone is acknowledged on the
    stream it was read from and the next stream is tried; when no stream has
    a message, four reads are made, nothing is acknowledged and no task and
    no error is returned. *)
Theorem Dequeue_priority_order (q : RedisQueue) (consumerID : string) (env : Env) :
  let read := fun tag : string =>
    XREADGROUP (consumerGroup q) consumerID
      [(streamPrefix q ++ ":" ++ tag)%string; ">"] 1 0 in
  ((forall n, (n < 4)%nat -> reply env n = ReplyNil) ->
     run (Dequeue q consumerID) env = (None, "", None)
     /\ trace (Dequeue q consumerID) env
        = [read "critical"; read "high"; read "normal"; read "low"])
  /\ (forall first others msg msgs taskID t,
        reply env 0%nat = ReplyStreams (first :: others) ->
        Messages first = msg :: msgs ->
        string_value (Values msg) "task_id" = Some taskID ->
        reply env 1%nat = ReplyBytes (TaskJSON t) ->
        run (Dequeue q consumerID) env = (Some t, MsgID msg, None)
        /\ trace (Dequeue q consumerID) env
           = [read "critical"; GET ("task:" ++ taskID)%string])
  /\ (forall first others msg msgs taskID,
        reply env 0%nat = ReplyStreams (first :: others) ->
        Messages first = msg :: msgs ->
        string_value (Values msg) "task_id" = Some taskID ->
        reply env 1%nat = ReplyNil ->
        exists rest,
          trace (Dequeue q consumerID) env
          = [ read "critical"; GET ("task:" ++ taskID)%string;
              XACK (streamPrefix q ++ ":critical")%string (consumerGroup q)
                   (MsgID msg);
              read "high" ] ++ rest).
Proof.
  cbv zeta. split; [|split].
  - intro H. unfold Dequeue, priorities. rewrite !dequeue_from_cons.
    unfold dequeue_from. step_m.
    rewrite (H 0%nat) by lia. cbn. rewrite (H 1%nat) by lia. cbn.
    rewrite (H 2%nat) by lia. cbn. rewrite (H 3%nat) by lia. cbn.
    now split.
  - intros first others msg msgs taskID t H0 Hm Hid H1.
    unfold Dequeue, priorities. rewrite dequeue_from_cons.
    unfold Queue.GetTask. step_m.
    rewrite H0, Hm, Hid. cbn. rewrite H1. cbn. now split.
  - intros first others msg msgs taskID H0 Hm Hid H1.
    unfold Dequeue, priorities, trace. rewrite dequeue_from_cons.
    unfold Queue.GetTask, start, bind, ret, call. cbn.
    rewrite H0, Hm, Hid. cbn. rewrite H1. cbn.
    match goal with
    | |- context [dequeue_from q consumerID (?p :: ?ps) env ?w] =>
        destruct (dequeue_from_first_read q consumerID p ps env w) as [l Hl]
    end.
    rewrite Hl. cbn. exists l. reflexivity.
Qed.

Lemma Dequeue_priority_order_witness :
  run (Dequeue example_queue "w1") env_timeout = (None, "", None)
  /\ run (Dequeue example_queue "w1") (env_deliver example_task)
     = (Some example_task, "1700000000000-0", None)
  /\ exists rest,
       trace (Dequeue example_queue "w1") env_poison
       = [ XREADGROUP "workers" "w1" ["tasks:critical"; ">"] 1 0;
           GET "task:gone";
           XACK "tasks:critical" "workers" "1700000000000-0";
           XREADGROUP "workers" "w1" ["tasks:high"; ">"] 1 0 ] ++ rest.
Proof.
  split; [|split].
  - apply (proj1 (Dequeue_priority_order example_queue "w1" env_timeout)).
    intros n _. reflexivity.
  - apply (proj1 (proj2 (Dequeue_priority_order example_queue "w1"
                           (env_deliver example_task)))
             (mkXStream "tasks:critical"
                [mkXMessage "1700000000000-0"
                   [("task_id", VString "7f3c"); ("type", VString "echo")]])
             [] (mkXMessage "1700000000000-0"
                   [("task_id", VString "7f3c"); ("type", VString "echo")])
             [] "7f3c" example_task); reflexivity.
  - apply (proj2 (proj2 (Dequeue_priority_order example_queue "w1" env_poison))
             (mkXStream "tasks:high"
                [mkXMessage "1700000000000-0"
                   [("task_id", VString "gone"); ("type", VString "echo")]])
             [] (mkXMessage "1700000000000-0"
                   [("task_id", VString "gone"); ("type", VString "echo")])
             [] "gone"); reflexivity.
Defined.

(* ----------------------------------------------------------------- *)
(** *** Claiming orphaned messages *)

Lemma claim_pending_spec (q : RedisQueue) (consumerID streamName : string)
    (pending : list XPendingExt) :
  forall (tasks : list Task) (messageIDs : list string) (env : Env) (w : World),
    let r := Queue.claim_pending q consumerID streamName pending tasks
               messageIDs env w in
    (List.length tasks = List.length messageIDs ->
     List.length (fst (fst r)) = List.length (snd (fst r)))
    /\ exists l, log (snd r) = log w ++ l /\ Forall claim_command l.
Proof.
  induction pending as [|p rest IH]; intros tasks messageIDs env w; cbv zeta.
  - cbn. split; [tauto|]. exists []. split; [now rewrite app_nil_r | constructor].
  - cbn [Queue.claim_pending].
    destruct (Idle p <? claimMinIdle q); [apply IH|].
    unfold bind, call. cbn.
    set (w1 := mkWorld (log w ++ [XCLAIM streamName (consumerGroup q) consumerID
                                    (claimMinIdle q) [PendingID p]]) (ticks w)).
    assert (Hskip : forall ts ms,
               let r := Queue.claim_pending q consumerID streamName rest ts ms
                          env w1 in
               (List.length ts = List.length ms ->
                List.length (fst (fst r)) = List.length (snd (fst r)))
               /\ exists l, log (snd r) = log w ++ l /\ Forall claim_command l).
    { intros ts ms. cbv zeta.
      destruct (IH ts ms env w1) as [Hlen [l [Hl Hf]]]. split; [exact Hlen|].
      exists (XCLAIM streamName (consumerGroup q) consumerID (claimMinIdle q)
                [PendingID p] :: l).
      split.
      - rewrite Hl. subst w1. cbn. now rewrite <- app_assoc.
      - constructor; [exact I | exact Hf]. }
    destruct (reply env (List.length (log w))) as [ | e | | d | r | r | [|msg ms] ];
      try apply Hskip.
    destruct (string_value (Values msg) "task_id") as [taskID|]; [|apply Hskip].
    pose proof (GetTask_world q taskID env w1) as Hw.
    destruct (Queue.GetTask q taskID env w1) as [[t|e] w2]; cbn in Hw; subst w2.
    + match goal with
      | |- context [Queue.claim_pending q consumerID streamName rest ?ts ?ids env ?w'] =>
          destruct (IH ts ids env w') as [Hlen [l [Hl Hf]]]
      end.
      split.
      * intro E. apply Hlen. rewrite !length_app. cbn. lia.
      * exists (XCLAIM streamName (consumerGroup q) consumerID (claimMinIdle q)
                  [PendingID p] :: GET (taskKey taskID) :: l).
        split.
        -- rewrite Hl. subst w1. cbn. now rewrite <- !app_assoc.
        -- repeat constructor. exact Hf.
    + match goal with
      | |- context [Queue.claim_pending q consumerID streamName rest ?ts ?ids env ?w'] =>
          destruct (IH ts ids env w') as [Hlen [l [Hl Hf]]]
      end.
      split; [exact Hlen|].
      exists (XCLAIM streamName (consumerGroup q) consumerID (claimMinIdle q)
                [PendingID p] :: GET (taskKey taskID) :: l).
      split.
      * rewrite Hl. subst w1. cbn. now rewrite <- !app_assoc.
      * repeat constructor. exact Hf.
Qed.

Lemma claim_streams_spec (q : RedisQueue) (consumerID : string)
    (ps : list Priority) :
  forall (tasks : list Task) (messageIDs : list string) (env : Env) (w : World),
    let r := Queue.claim_streams q consumerID ps tasks messageIDs env w in
    (List.length tasks = List.length messageIDs ->
     List.length (fst (fst r)) = List.length (snd (fst r)))
    /\ exists l, log (snd r) = log w ++ l /\ Forall claim_command l.
Proof.
  induction ps as [|p rest IH]; intros tasks messageIDs env w; cbv zeta.
  - cbn. split; [tauto|]. exists []. split; [now rewrite app_nil_r | constructor].
  - cbn [Queue.claim_streams]. unfold bind, call. cbn.
    set (c := XPENDING (StreamName p (streamPrefix q)) (consumerGroup q) "-" "+" 100).
    set (w1 := mkWorld (log w ++ [c]) (ticks w)).
    assert (Hskip :
              let r := Queue.claim_streams q consumerID rest tasks messageIDs
                         env w1 in
              (List.length tasks = List.length messageIDs ->
               List.length (fst (fst r)) = List.length (snd (fst r)))
              /\ exists l, log (snd r) = log w ++ l /\ Forall claim_command l).
    { cbv zeta. destruct (IH tasks messageIDs env w1) as [Hlen [l [Hl Hf]]].
      split; [exact Hlen|]. exists (c :: l). split.
      - rewrite Hl. subst w1. cbn. now rewrite <- app_assoc.
      - constructor; [exact I | exact Hf]. }
    destruct (reply env (List.length (log w))) as [ | e | | d | r | pending | r ];
      try apply Hskip.
    destruct (claim_pending_spec q consumerID (StreamName p (streamPrefix q))
                pending tasks messageIDs env w1) as [Hlen1 [l1 [Hl1 Hf1]]].
    destruct (Queue.claim_pending q consumerID (StreamName p (streamPrefix q))
                pending tasks messageIDs env w1) as [[ts ms] w2].
    cbn in Hlen1, Hl1.
    destruct (IH ts ms env w2) as [Hlen2 [l2 [Hl2 Hf2]]].
    split.
    + intro E. apply Hlen2. now apply Hlen1.
    + exists (c :: l1 ++ l2). split.
      * rewrite Hl2, Hl1. subst w1. cbn. rewrite <- !app_assoc. reflexivity.
      * constructor; [exact I|]. apply Forall_app. now split.
Qed.

Lemma claim_pending_young (q : RedisQueue) (consumerID streamName : string)
    (pending : list XPendingExt) (tasks : list Task) (messageIDs : list string)
    (env : Env) (w : World) :
  Forall (fun p => Idle p < claimMinIdle q) pending ->
  Queue.claim_pending q consumerID streamName pending tasks messageIDs env w
  = (tasks, messageIDs, w).
Proof.
  induction 1 as [|p rest Hp _ IH]; [reflexivity|].
  cbn [Queue.claim_pending].
  apply Z.ltb_lt in Hp. rewrite Hp. exact IH.
Qed.

Lemma claim_streams_young (q : RedisQueue) (consumerID : string) (env : Env)
    (ps : list Priority) :
  (forall n pending, reply env n = ReplyPending pending ->
     Forall (fun p => Idle p < claimMinIdle q) pending) ->
  forall (tasks : list Task) (messageIDs : list string) (w : World),
    Queue.claim_streams q consumerID ps tasks messageIDs env w
    = (tasks, messageIDs,
       mkWorld (log w
                ++ map (fun p => XPENDING (StreamName p (streamPrefix q))
                                   (consumerGroup q) "-" "+" 100) ps)
               (ticks w)).
Proof.
  intro Hy. induction ps as [|p rest IH]; intros tasks messageIDs w.
  - cbn. rewrite app_nil_r. now destruct w.
  - cbn [Queue.claim_streams map]. unfold bind, call. cbn.
    destruct (reply env (List.length (log w))) as [ | e | | d | r | pending | r ]
      eqn:E;
      try (rewrite IH; cbn; now rewrite <- app_assoc).
    rewrite (claim_pending_young q consumerID _ pending tasks messageIDs env _
               (Hy _ _ E)).
    rewrite IH. cbn. now rewrite <- app_assoc.
Qed.

(** X17: [ClaimOrphanedTasks] never fails and returns as many message IDs as
    tasks, so the recovery loop can index one by the other; it only lists
    pending entries, claims them and reads records, and never acknowledges
    or writes; and when every pending entry has been idle for less than
    [claimMinIdle] it claims nothing: it lists the four streams and returns
    no task. *)
Theorem ClaimOrphanedTasks_spec (q : RedisQueue) (id : string) (env : Env) :
  let r := run (Queue.ClaimOrphanedTasks q id) env in
  List.length (fst (fst r)) = List.length (snd (fst r))
  /\ snd r = None
  /\ Forall claim_command (trace (Queue.ClaimOrphanedTasks q id) env)
  /\ ((forall n pending, reply env n = ReplyPending pending ->
         Forall (fun p => Idle p < claimMinIdle q) pending) ->
      r = ([], [], None)
      /\ trace (Queue.ClaimOrphanedTasks q id) env
         = map (fun tag : string =>
                  XPENDING (streamPrefix q ++ ":" ++ tag)%string
                    (consumerGroup q) "-" "+" 100)
               ["critical"; "high"; "normal"; "low"]).
Proof.
  cbv zeta. unfold run, trace, Queue.ClaimOrphanedTasks, bind, ret.
  destruct (claim_streams_spec q id priorities [] [] env start)
    as [Hlen [l [Hl Hf]]].
  split; [|split; [|split]].
  - destruct (Queue.claim_streams q id priorities [] [] env start)
      as [[ts ms] w1]. cbn in *. now apply Hlen.
  - destruct (Queue.claim_streams q id priorities [] [] env start)
      as [[ts ms] w1]. reflexivity.
  - destruct (Queue.claim_streams q id priorities [] [] env start)
      as [[ts ms] w1]. cbn in *. now rewrite Hl.
  - intro Hy. rewrite (claim_streams_young q id env priorities Hy). cbn.
    split; reflexivity.
Qed.

Lemma ClaimOrphanedTasks_spec_witness :
  run (Queue.ClaimOrphanedTasks example_queue "w2") env_young = ([], [], None).
Proof.
  refine (proj1 (proj2 (proj2 (proj2
            (ClaimOrphanedTasks_spec example_queue "w2" env_young))) _)).
  intros n pending H. injection H as <-.
  constructor; [|constructor]. cbn. lia.
Defined.

(* ----------------------------------------------------------------- *)
(** *** Adding to the dead letter queue *)

(** X18: [DLQ.Add] appends the entry, which carries the task in state
    dead_letter, the reason and the error of the task, to the dead letter
    stream and only then adds the id to the membership set; when the append
    fails it returns the error and the set is not touched; when the append
    succeeds it returns nil, also when the set could not be updated; in
    every case the task in memory is left in state dead_letter. *)
Theorem DLQ_Add_effects (t : Task) (reason : string) (env : Env) :
  let t' := fst (run (DLQ.Add t reason) env) in
  State_ t' = StateDeadLetter
  /\ Error t' = Error t
  /\ ID t' = ID t
  /\ (forall e, Err (reply env 0%nat) = Some e ->
        snd (run (DLQ.Add t reason) env)
        = Some (Errorf "failed to add to DLQ stream" e)
        /\ trace (DLQ.Add t reason) env
           = [ XADD "tasks:dlq"
                 [ ("task_id", Text (ID t)); ("type", Text (Type_ t));
                   ("data", DLQEntryJSON t' reason (clock env 2%nat) (Error t)) ] ])
  /\ (Err (reply env 0%nat) = None ->
        snd (run (DLQ.Add t reason) env) = None
        /\ trace (DLQ.Add t reason) env
           = [ XADD "tasks:dlq"
                 [ ("task_id", Text (ID t)); ("type", Text (Type_ t));
                   ("data", DLQEntryJSON t' reason (clock env 2%nat) (Error t)) ];
               SADD "tasks:dlq:set" (ID t) ]).
Proof.
  cbv zeta.
  unfold DLQ.Add, StateMachine.MoveToDLQ, StateMachine.Transition. step_m.
  destruct (CanTransitionTo (State_ t) StateDeadLetter); cbn;
    (split; [|split; [|split; [|split]]]);
    try (destruct (Err (reply env 0%nat)); reflexivity);
    try (intros e H0; rewrite H0; cbn; now split);
    try (intros H0; rewrite H0; cbn; now split).
Qed.

Lemma DLQ_Add_effects_witness :
  snd (run (DLQ.Add example_task "manual") env_ok) = None
  /\ snd (run (DLQ.Add example_task "manual") env_timeout)
     = Some (Errorf "failed to add to DLQ stream" (ErrStore "redis: nil")).
Proof.
  split.
  - apply (proj1 (proj2 (proj2 (proj2 (proj2
             (DLQ_Add_effects example_task "manual" env_ok)))) eq_refl)).
  - apply (proj1 (proj1 (proj2 (proj2 (proj2
             (DLQ_Add_effects example_task "manual" env_timeout))))
                    (ErrStore "redis: nil") eq_refl)).
Defined.

(* ================================================================= *)
(** ** Further properties of the worker pool *)

Lemma UpdateTask_run (q : RedisQueue) (t : Task) (env : Env) (w : World) :
  Queue.UpdateTask q t env w
  = (Err (reply env (List.length (log w))),
     mkWorld (log w
              ++ [SET (taskKey (ID t)) (TaskJSON t)
                      (if IsFinal (State_ t) then GetRetentionTTL q else 0)])
             (ticks w)).
Proof.
  unfold Queue.UpdateTask, GetRetentionTTL, json_Marshal, bind, call, ret.
  rewrite Z.gtb_ltb.
  destruct (IsFinal (State_ t)); cbn [andb]; [|reflexivity].
  destruct (Z.ltb_spec 0 (taskRetentionDays q)),
    (Z.leb_spec (taskRetentionDays q) 0); try lia; reflexivity.
Qed.




Arguments Queue.UpdateTask : simpl never.
Arguments Queue.Acknowledge : simpl never.




(** The task a failed execution of a running task leaves in memory. *)
Lemma handleTaskFailure_result (q : RedisQueue) (t : Task)
    (messageID execErr : string) (env : Env) (w : World) :
  State_ t = StateRunning ->
  let final := fst (Pool.handleTaskFailure q t messageID execErr env w) in
  Error final = execErr
  /\ Attempts final = Attempts t
  /\ WorkerID final = WorkerID t
  /\ (CanRetry t = true ->
      State_ final = StatePending /\ CompletedAt final = CompletedAt t)
  /\ (CanRetry t = false ->
      State_ final = StateDeadLetter /\ CompletedAt final <> None).
Proof.
  intro Hs. cbv zeta. unfold Pool.handleTaskFailure.
  destruct (CanRetry t) eqn:Hc.
  - unfold Queue.UpdateTask, Queue.Enqueue, Queue.Acknowledge,
      Retryer.PrepareForRequeue, StateMachine.Retry, StateMachine.Transition,
      bind, ret, call, time_Now.
    rewrite Hc. cbn. rewrite Hs. cbn.
    unfold CanRetry in *. cbn. rewrite Hc. cbn.
    destruct (Err (reply env (List.length (log w ++ _)))); cbn;
      try destruct (Err (reply env (List.length ((log w ++ _) ++ _)))); cbn;
      repeat split; intros; try reflexivity; discriminate.
  - unfold Queue.UpdateTask, Queue.Acknowledge, DLQ.Add, StateMachine.Fail,
      StateMachine.MoveToDLQ, StateMachine.Transition, bind, ret, call, time_Now.
    rewrite Hs. cbn.
    destruct (taskRetentionDays q >? 0); cbn;
      destruct (Err (reply env (List.length (log w ++ _)))); cbn;
      repeat split; intros; try reflexivity; discriminate.
Qed.

Lemma DequeueBlocking_delivers (q : RedisQueue) (id : string) (env : Env)
    (first : XStream) (others : list XStream) (msg : XMessage)
    (msgs : list XMessage) (taskID : string) (t : Task) :
  reply env 0%nat = ReplyStreams (first :: others) ->
  Messages first = msg :: msgs ->
  string_value (Values msg) "task_id" = Some taskID ->
  reply env 1%nat = ReplyBytes (TaskJSON t) ->
  Queue.DequeueBlocking q id env start
  = (Some t, MsgID msg, None,
     mkWorld [blocking_read q id; GET (taskKey taskID)] 0).
Proof.
  intros H0 Hm Hid H1.
  unfold Queue.DequeueBlocking, Queue.GetTask, start, bind, ret, call. cbn.
  rewrite H0, Hm, Hid. cbn. rewrite H1. reflexivity.
Qed.

Lemma Start_startable (now now' : Time) (id : string) (t : Task) :
  startable (State_ t) ->
  StateMachine.Start now now' id t
  = (set_UpdatedAt now'
       (set_Attempts (int_incr (Attempts t))
          (set_WorkerID id
             (set_StartedAt (Some now)
                (set_UpdatedAt now (set_State StateRunning t))))), None).
Proof.
  intro Hs. apply CanTransitionTo_running in Hs.
  unfold StateMachine.Start, StateMachine.Transition. rewrite Hs. reflexivity.
Qed.

Arguments StateMachine.Start : simpl never.
Arguments Pool.handleTaskFailure : simpl never.
Arguments handleTaskSuccess : simpl never.
Arguments Execute : simpl never.



(** X21: when the record of the delivered message is in a state a worker
    cannot start from (running, completed, failed, cancelled, dead_letter),
    the round returns [ErrInvalidTransition], leaves the task as it was and
    sends nothing further to the store: the record is not written and the
    message is not acknowledged, so it stays pending in the stream. *)
Theorem processNextTask_rejected (q : RedisQueue) (id : string)
    (handlers : list (string * TaskHandler)) (env : Env)
    (first : XStream) (others : list XStream) (msg : XMessage)
    (msgs : list XMessage) (taskID : string) (t : Task) :
  reply env 0%nat = ReplyStreams (first :: others) ->
  Messages first = msg :: msgs ->
  string_value (Values msg) "task_id" = Some taskID ->
  reply env 1%nat = ReplyBytes (TaskJSON t) ->
  ~ startable (State_ t) ->
  run (processNextTask q id handlers) env = (Some t, Some ErrInvalidTransition)
  /\ trace (processNextTask q id handlers) env
     = [blocking_read q id; GET ("task:" ++ taskID)%string].
Proof.
  intros H0 Hm Hid H1 Hs.
  assert (Hc : CanTransitionTo (State_ t) StateRunning = false).
  { destruct (CanTransitionTo (State_ t) StateRunning) eqn:E; [|reflexivity].
    apply CanTransitionTo_running in E. contradiction. }
  assert (HS : StateMachine.Start (clock env 0%nat) (clock env 1%nat) id t
               = (t, Some ErrInvalidTransition)).
  { unfold StateMachine.Start. now rewrite (Transition_invalid _ _ _ Hc). }
  unfold run, trace, processNextTask, bind.
  rewrite (DequeueBlocking_delivers q id env first others msg msgs taskID t
             H0 Hm Hid H1).
  unfold time_Now, ret. cbn. rewrite HS. cbn. now split.
Qed.

Lemma processNextTask_rejected_witness :
  run (processNextTask example_queue "w1" example_handlers)
      (env_deliver cancelled_task)
  = (Some cancelled_task, Some ErrInvalidTransition).
Proof.
  refine (proj1 (processNextTask_rejected example_queue "w1" example_handlers
                   (env_deliver cancelled_task)
                   (mkXStream "tasks:critical"
                      [mkXMessage "1700000000000-0"
                         [("task_id", VString "7f3c"); ("type", VString "echo")]])
                   [] (mkXMessage "1700000000000-0"
                         [("task_id", VString "7f3c"); ("type", VString "echo")])
                   [] "7f3c" cancelled_task eq_refl eq_refl eq_refl eq_refl _)).
  unfold startable. cbn. intros [H | [H | H]]; discriminate H.
Defined.

(** X22: one round of a worker on a startable task whose execution fails
    (no handler for the type, a handler error, a timeout, a cancellation or
    a panic): the round itself returns no error; the task ends with one
    more attempt and the message of the failure as its error; it is back in
    state pending when the attempts made are still below the task's
    max_retries, and otherwise in state dead_letter with its completion
    time set. *)
Theorem processNextTask_failure (q : RedisQueue) (id : string)
    (handlers : list (string * TaskHandler)) (env : Env)
    (first : XStream) (others : list XStream) (msg : XMessage)
    (msgs : list XMessage) (taskID : string) (t : Task)
    (r : JSONObject) (e : ExecError) :
  reply env 0%nat = ReplyStreams (first :: others) ->
  Messages first = msg :: msgs ->
  string_value (Values msg) "task_id" = Some taskID ->
  reply env 1%nat = ReplyBytes (TaskJSON t) ->
  startable (State_ t) ->
  0 <= Attempts t < MaxInt ->
  Execute handlers
    (fst (StateMachine.Start (clock env 0%nat) (clock env 1%nat) id t))
  = (r, Some e) ->
  exists final,
    run (processNextTask q id handlers) env = (Some final, None)
    /\ Attempts final = Attempts t + 1
    /\ Error final = ExecError_Error e
    /\ WorkerID final = id
    /\ (Attempts t + 1 < MaxRetries t -> State_ final = StatePending)
    /\ (MaxRetries t <= Attempts t + 1 ->
        State_ final = StateDeadLetter /\ CompletedAt final <> None).
Proof.
  intros H0 Hm Hid H1 Hs Ha Hx.
  set (started := fst (StateMachine.Start (clock env 0%nat) (clock env 1%nat) id t))
    in *.
  assert (HS : StateMachine.Start (clock env 0%nat) (clock env 1%nat) id t
               = (started, None)).
  { subst started. now rewrite (Start_startable _ _ id t Hs). }
  assert (Hst : State_ started = StateRunning
                /\ MaxRetries started = MaxRetries t
                /\ Attempts started = Attempts t + 1
                /\ WorkerID started = id).
  { subst started. rewrite (Start_startable _ _ id t Hs). cbn.
    rewrite (int_incr_small _ Ha). repeat split. }
  destruct Hst as (Sr & Sm & Sa & Sw).
  unfold run, processNextTask, bind.
  rewrite (DequeueBlocking_delivers q id env first others msg msgs taskID t
             H0 Hm Hid H1).
  unfold time_Now, ret. cbn. rewrite HS.
  rewrite UpdateTask_run. cbn. rewrite Hx.
  match goal with
  | |- context [Pool.handleTaskFailure q started ?m ?x env ?w] =>
      pose proof (handleTaskFailure_result q started m x env w Sr) as Hf;
      destruct (Pool.handleTaskFailure q started m x env w) as [final w']
  end.
  cbv zeta in Hf. cbn in Hf. destruct Hf as (He & Hat & Hw & Hy & Hn).
  exists final. cbn.
  split; [reflexivity|]. split; [lia|]. split; [exact He|].
  split; [congruence|]. split.
  - intro Hlt. apply Hy. unfold CanRetry. apply Z.ltb_lt. lia.
  - intro Hge. apply Hn. unfold CanRetry. apply Z.ltb_ge. lia.
Qed.

Lemma processNextTask_failure_witness :
  exists final,
    run (processNextTask example_queue "w1" example_handlers)
        (env_deliver unknown_task) = (Some final, None)
    /\ Error final = "handler not found for task type"
    /\ State_ final = StatePending.
Proof.
  destruct (processNextTask_failure example_queue "w1" example_handlers
              (env_deliver unknown_task)
              (mkXStream "tasks:critical"
                 [mkXMessage "1700000000000-0"
                    [("task_id", VString "c3d4"); ("type", VString "resize")]])
              [] (mkXMessage "1700000000000-0"
                    [("task_id", VString "c3d4"); ("type", VString "resize")])
              [] "c3d4" unknown_task None ErrHandlerNotFound
              eq_refl eq_refl eq_refl eq_refl (or_introl eq_refl))
    as (final & Hr & _ & He & _ & Hp & _).
  - cbn. unfold MaxInt. lia.
  - reflexivity.
  - exists final. split; [exact Hr|]. split; [exact He|].
    apply Hp. cbn. lia.
Defined.

(** X23: a failed execution with retries left whose re-enqueue fails still
    acknowledges the original message: when the record cannot be rewritten
    nothing is appended to the stream, and when the append fails the record
    is deleted; in both cases the acknowledgement follows, so no stream
    holds a message of the task any more. *)
Theorem handleTaskFailure_failed_enqueue (q : RedisQueue) (t : Task)
    (messageID execErr : string) (env : Env) :
  State_ t = StateRunning ->
  CanRetry t = true ->
  let key := ("task:" ++ ID t)%string in
  let stream := (streamPrefix q ++ ":" ++ Priority_String (Priority_ t))%string in
  let retrying :=
    set_Error execErr
      (set_UpdatedAt (clock env 0%nat) (set_State StateRetrying t)) in
  let pending :=
    set_UpdatedAt (clock env 2%nat)
      (set_ScheduledAt None (set_State StatePending retrying)) in
  let ack := XACK stream (consumerGroup q) messageID in
  (forall e, Err (reply env 1%nat) = Some e ->
     trace (Pool.handleTaskFailure q t messageID execErr) env
     = [ SET key (TaskJSON retrying) 0; SET key (TaskJSON pending) 0; ack ])
  /\ (forall e, Err (reply env 1%nat) = None -> Err (reply env 2%nat) = Some e ->
        trace (Pool.handleTaskFailure q t messageID execErr) env
        = [ SET key (TaskJSON retrying) 0; SET key (TaskJSON pending) 0;
            XADD stream [("task_id", Text (ID t)); ("type", Text (Type_ t))];
            DEL key; ack ]).
Proof.
  intros Hs Hc. cbv zeta.
  unfold Pool.handleTaskFailure. rewrite Hc.
  unfold Queue.UpdateTask, Queue.Enqueue, Queue.Acknowledge,
    Retryer.PrepareForRequeue, StateMachine.Retry, StateMachine.Transition,
    message_ref, StreamName, taskKey, json_Marshal.
  step_m. rewrite Hc. cbn. rewrite Hs. cbn.
  unfold CanRetry in *. cbn. rewrite Hc. cbn.
  split.
  - intros e H1. rewrite H1. reflexivity.
  - intros e H1 H2. rewrite H1. cbn. rewrite H2. reflexivity.
Qed.

Lemma handleTaskFailure_failed_enqueue_witness :
  List.length (trace (Pool.handleTaskFailure example_queue running_task
                        "1700000000000-0" "boom") env_timeout) = 3%nat.
Proof.
  rewrite (proj1 (handleTaskFailure_failed_enqueue example_queue running_task
                    "1700000000000-0" "boom" env_timeout eq_refl eq_refl)
             (ErrStore "redis: nil") eq_refl).
  reflexivity.
Defined.

(* ================================================================= *)
(** ** Further properties of the handlers of the API *)

Lemma CanTransitionTo_cancelled_from (s : State) :
  s = StatePending \/ s = StateScheduled ->
  CanTransitionTo s StateCancelled = true.
Proof. intros [-> | ->]; reflexivity. Qed.

Arguments StateMachine.Cancel : simpl never.
Arguments StateMachine.Requeue : simpl never.
Arguments Queue.Enqueue : simpl never.

(** X24: the cancel handler answers 400 without a task id and 404 when the
    record is missing, both without a write; it refuses with 409 a task that
    is neither pending nor scheduled, leaving the record as it is; a pending
    or scheduled task is written once, in state cancelled with its
    completion time set and with the retention of final records, and
    answered with 200 and the cancelled task, or with 500 when the write
    failed.  It sends nothing but the read and that write: the message of
    the task and its entry in the delayed index stay where they are. *)
Theorem Cancel_handler_spec (q : RedisQueue) (taskID : string) (env : Env) :
  taskID <> "" ->
  let get := GET ("task:" ++ taskID)%string in
  run (TaskHandler.Cancel q "") env
  = RespondError StatusBadRequest "task ID is required"
  /\ trace (TaskHandler.Cancel q "") env = []
  /\ (reply env 0%nat = ReplyNil ->
      run (TaskHandler.Cancel q taskID) env
      = RespondError StatusNotFound "task not found"
      /\ trace (TaskHandler.Cancel q taskID) env = [get])
  /\ (forall t, reply env 0%nat = ReplyBytes (TaskJSON t) ->
        State_ t <> StatePending -> State_ t <> StateScheduled ->
        run (TaskHandler.Cancel q taskID) env
        = RespondError StatusConflict "task cannot be cancelled in current state"
        /\ trace (TaskHandler.Cancel q taskID) env = [get])
  /\ (forall t, reply env 0%nat = ReplyBytes (TaskJSON t) ->
        State_ t = StatePending \/ State_ t = StateScheduled ->
        let cancelled :=
          set_CompletedAt (Some (clock env 0%nat))
            (set_UpdatedAt (clock env 0%nat) (set_State StateCancelled t)) in
        trace (TaskHandler.Cancel q taskID) env
        = [ get;
            SET ("task:" ++ ID t)%string (TaskJSON cancelled) (GetRetentionTTL q) ]
        /\ (Err (reply env 1%nat) = None ->
            run (TaskHandler.Cancel q taskID) env
            = RespondTask StatusOK (ToResponse cancelled)
            /\ RespState (ToResponse cancelled) = "cancelled")
        /\ (Err (reply env 1%nat) <> None ->
            run (TaskHandler.Cancel q taskID) env
            = RespondError StatusInternalServerError "failed to cancel task")).
Proof.
  intro Hid. cbv zeta.
  apply String.eqb_neq in Hid.
  split; [reflexivity|]. split; [reflexivity|].
  split; [|split].
  - intro H0. unfold run, trace, TaskHandler.Cancel, Queue.GetTask.
    rewrite Hid. unfold bind, ret, call, start. cbn. rewrite H0. now split.
  - intros t H0 Hp Hsch. unfold run, trace, TaskHandler.Cancel, Queue.GetTask.
    rewrite Hid. unfold bind, ret, call, start. cbn. rewrite H0. cbn.
    destruct (Z.eqb_spec (State_ t) StatePending); [contradiction|].
    destruct (Z.eqb_spec (State_ t) StateScheduled); [contradiction|].
    cbn. now split.
  - intros t H0 Hs.
    assert (Hg : negb (State_ t =? StatePending)
                 && negb (State_ t =? StateScheduled) = false).
    { destruct Hs as [-> | ->]; reflexivity. }
    assert (HC : StateMachine.Cancel (clock env 0%nat) t
                 = (set_CompletedAt (Some (clock env 0%nat))
                      (set_UpdatedAt (clock env 0%nat)
                         (set_State StateCancelled t)), None)).
    { unfold StateMachine.Cancel, StateMachine.Transition.
      rewrite (CanTransitionTo_cancelled_from _ Hs). reflexivity. }
    unfold run, trace, TaskHandler.Cancel, Queue.GetTask.
    rewrite Hid. unfold bind, ret, call, time_Now, start. cbn.
    rewrite H0. cbn. rewrite Hg. cbn. rewrite HC. rewrite UpdateTask_run. cbn.
    split; [|split].
    + destruct (Err (reply env 1%nat)); reflexivity.
    + intro H1. rewrite H1. split; reflexivity.
    + intro H1. destruct (Err (reply env 1%nat)); [reflexivity | contradiction].
Qed.

Lemma Cancel_handler_spec_witness :
  status_of (run (TaskHandler.Cancel example_queue "7f3c")
               (env_record example_task)) = StatusOK
  /\ status_of (run (TaskHandler.Cancel example_queue "7f3c")
                  (env_record running_task)) = StatusConflict
  /\ status_of (run (TaskHandler.Cancel example_queue "7f3c") env_timeout)
     = StatusNotFound.
Proof.
  assert (Hid : "7f3c" <> "") by discriminate.
  split; [|split].
  - rewrite (proj1 (proj1 (proj2 (proj2 (proj2 (proj2 (proj2
               (Cancel_handler_spec example_queue "7f3c"
                  (env_record example_task) Hid))))
               example_task eq_refl (or_introl eq_refl))) eq_refl)).
    reflexivity.
  - rewrite (proj1 (proj1 (proj2 (proj2 (proj2
               (Cancel_handler_spec example_queue "7f3c"
                  (env_record running_task) Hid))))
               running_task eq_refl
               ltac:(discriminate) ltac:(discriminate))).
    reflexivity.
  - rewrite (proj1 (proj1 (proj2 (proj2
               (Cancel_handler_spec example_queue "7f3c" env_timeout Hid)))
               eq_refl)).
    reflexivity.
Defined.

Lemma Enqueue_run (q : RedisQueue) (t : Task) (env : Env) (w : World) :
  let write := SET (taskKey (ID t)) (TaskJSON t) 0 in
  let append := XADD (StreamName (Priority_ t) (streamPrefix q)) (message_ref t) in
  Queue.Enqueue q t env w
  = match Err (reply env (List.length (log w))) with
    | Some e =>
        (Some (Errorf "failed to store task data" e),
         mkWorld (log w ++ [write]) (ticks w))
    | None =>
        match Err (reply env (S (List.length (log w)))) with
        | Some e =>
            (Some (Errorf "failed to add task to stream" e),
             mkWorld (log w ++ [write; append; DEL (taskKey (ID t))]) (ticks w))
        | None => (None, mkWorld (log w ++ [write; append]) (ticks w))
        end
    end.
Proof.
  cbv zeta. unfold Queue.Enqueue, json_Marshal, bind, ret, call.
  cbn -[List.length app].
  destruct (Err (reply env (List.length (log w)))); [reflexivity|].
  cbn -[List.length app]. rewrite length_app, Nat.add_1_r.
  destruct (Err (reply env (S (List.length (log w))))); cbn -[List.length app];
    rewrite <- ?app_assoc; reflexivity.
Qed.

(** X25: the retry handler of the admin API refuses with 409 a task that is
    neither failed nor dead_letter, without a write; for a failed or
    dead_letter task the requeue cannot fail: the task is reset to pending
    with no attempts, no error, no worker and no times, written, and
    enqueued again (its record written once more and a reference appended to
    the stream of its priority), and the answer is 200; when the first write
    fails the answer is 500 and nothing is appended. *)
Theorem RetryTask_handler_spec (q : RedisQueue) (taskID : string) (env : Env) :
  taskID <> "" ->
  let get := GET ("task:" ++ taskID)%string in
  (forall t, reply env 0%nat = ReplyBytes (TaskJSON t) ->
     State_ t <> StateFailed -> State_ t <> StateDeadLetter ->
     run (AdminHandler.RetryTask q taskID) env
     = RespondError StatusConflict
         "only failed or dead_letter tasks can be retried"
     /\ trace (AdminHandler.RetryTask q taskID) env = [get])
  /\ (forall t, reply env 0%nat = ReplyBytes (TaskJSON t) ->
        State_ t = StateFailed \/ State_ t = StateDeadLetter ->
        let fresh :=
          set_UpdatedAt (clock env 0%nat)
            (set_State StatePending
               (set_CompletedAt None (set_StartedAt None (set_Error ""
                  (set_Attempts 0 (set_WorkerID "" t)))))) in
        let write := SET ("task:" ++ ID t)%string (TaskJSON fresh) 0 in
        run (AdminHandler.RetryTask q taskID) env
        <> RespondError StatusConflict "failed to requeue task"
        /\ (Err (reply env 1%nat) <> None ->
            run (AdminHandler.RetryTask q taskID) env
            = RespondError StatusInternalServerError "failed to retry task"
            /\ trace (AdminHandler.RetryTask q taskID) env = [get; write])
        /\ (Err (reply env 1%nat) = None -> Err (reply env 2%nat) = None ->
            Err (reply env 3%nat) = None ->
            run (AdminHandler.RetryTask q taskID) env
            = RespondMap StatusOK
                [("message", "task re-queued"); ("task_id", taskID)]
            /\ trace (AdminHandler.RetryTask q taskID) env
               = [ get; write; write;
                   XADD (streamPrefix q ++ ":"
                         ++ Priority_String (Priority_ t))%string
                        [("task_id", Text (ID t)); ("type", Text (Type_ t))] ])).
Proof.
  intro Hid. cbv zeta. apply String.eqb_neq in Hid.
  split.
  - intros t H0 Hf Hd.
    unfold run, trace, AdminHandler.RetryTask, Queue.GetTask.
    rewrite Hid. unfold bind, ret, call, start. cbn. rewrite H0. cbn.
    destruct (Z.eqb_spec (State_ t) StateFailed); [contradiction|].
    destruct (Z.eqb_spec (State_ t) StateDeadLetter); [contradiction|].
    cbn. now split.
  - intros t H0 Hs.
    assert (Hg : negb (State_ t =? StateFailed)
                 && negb (State_ t =? StateDeadLetter) = false).
    { destruct Hs as [-> | ->]; reflexivity. }
    assert (HR : StateMachine.Requeue (clock env 0%nat) t
                 = (set_UpdatedAt (clock env 0%nat)
                      (set_State StatePending
                         (set_CompletedAt None (set_StartedAt None (set_Error ""
                            (set_Attempts 0 (set_WorkerID "" t)))))), None)).
    { unfold StateMachine.Requeue, StateMachine.Transition. cbn.
      destruct Hs as [-> | ->]; reflexivity. }
    unfold run, trace, AdminHandler.RetryTask, Queue.GetTask.
    rewrite Hid. unfold bind, ret, call, time_Now, start. cbn.
    rewrite H0. cbn. rewrite Hg. cbn. rewrite HR.
    rewrite UpdateTask_run. cbn.
    split; [|split].
    + destruct (Err (reply env 1%nat)); [discriminate|].
      rewrite Enqueue_run. cbn.
      destruct (Err (reply env 2%nat)); [discriminate|].
      destruct (Err (reply env 3%nat)); discriminate.
    + intro H1. destruct (Err (reply env 1%nat)); [|contradiction]. now split.
    + intros H1 H2 H3. rewrite H1. rewrite Enqueue_run. cbn.
      rewrite H2, H3. cbn. now split.
Qed.

Lemma RetryTask_handler_spec_witness :
  status_of (run (AdminHandler.RetryTask example_queue "7f3c")
               (env_record running_task)) = StatusConflict
  /\ status_of (run (AdminHandler.RetryTask example_queue "7f3c")
                  (env_record (fst (StateMachine.Fail 135 "boom" running_task))))
     = StatusOK.
Proof.
  assert (Hid : "7f3c" <> "") by discriminate.
  split.
  - rewrite (proj1 (proj1 (RetryTask_handler_spec example_queue "7f3c"
                             (env_record running_task) Hid)
                      running_task eq_refl
                      ltac:(discriminate) ltac:(discriminate))).
    reflexivity.
  - rewrite (proj1 (proj2 (proj2 (proj2
               (RetryTask_handler_spec example_queue "7f3c"
                  (env_record (fst (StateMachine.Fail 135 "boom" running_task)))
                  Hid)
               (fst (StateMachine.Fail 135 "boom" running_task)) eq_refl
               (or_introl eq_refl))) eq_refl eq_refl eq_refl)).
    reflexivity.
Defined.

(* ================================================================= *)
(** ** Further properties of the executor *)

Lemma find_handler_HasHandler (handlers : list (string * TaskHandler))
    (taskType : string) :
  HasHandler handlers taskType = true
  <-> exists h, find_handler handlers taskType = Some h.
Proof.
  unfold HasHandler. destruct (find_handler handlers taskType) as [h|].
  - split; [intros _; now exists h | reflexivity].
  - split; [discriminate | intros [h H]; discriminate H].
Qed.

(** X26: [Execute] never returns a result together with an error.  Without
    a handler for the type of the task it returns [ErrHandlerNotFound]; with
    one, it returns that error only when the handler itself did, for an
    error of the handler that is neither a deadline nor a cancellation is
    passed on as it is, without the result.  It succeeds exactly when the
    registered handler returns without an error, and then with the
    handler's result; a deadline and a cancellation come back as the
    sentinels of the package, and a panic of the handler as an error that
    carries the printed panic value. *)
Theorem Execute_outcome (handlers : list (string * TaskHandler)) (t : Task) :
  (snd (Execute handlers t) <> None -> fst (Execute handlers t) = None)
  /\ (HasHandler handlers (Type_ t) = false ->
      Execute handlers t = (None, Some ErrHandlerNotFound))
  /\ (snd (Execute handlers t) = Some ErrHandlerNotFound
      <-> HasHandler handlers (Type_ t) = false
          \/ exists h result,
               find_handler handlers (Type_ t) = Some h
               /\ h t = Returned result (Some (OtherError ErrHandlerNotFound)))
  /\ (forall result,
        Execute handlers t = (result, None)
        <-> exists h, find_handler handlers (Type_ t) = Some h
                      /\ h t = Returned result None)
  /\ (forall h,
        find_handler handlers (Type_ t) = Some h ->
        (forall result err,
           h t = Returned result (Some (OtherError err)) ->
           Execute handlers t = (None, Some err))
        /\ (forall result,
              h t = Returned result (Some DeadlineExceeded) ->
              Execute handlers t = (None, Some ErrTaskTimeout))
        /\ (forall result,
              h t = Returned result (Some Canceled) ->
              Execute handlers t = (None, Some ErrTaskCanceled))
        /\ (forall value,
              h t = Panicked value ->
              Execute handlers t
              = (None, Some (ErrorString ("handler panicked: " ++ value))))).
Proof.
  unfold Execute, HasHandler.
  destruct (find_handler handlers (Type_ t)) as [h|] eqn:Hf.
  - split; [|split; [discriminate|split; [|split]]].
    + destruct (h t) as [result [[ | | err]|] | value]; cbn;
        intros; try reflexivity; congruence.
    + split.
      * intro H. right. exists h.
        destruct (h t) as [result [[ | | err]|] | value]; cbn in H;
          try discriminate H.
        inversion H. subst err. exists result. split; reflexivity.
      * intros [H|(h' & result & E1 & E2)]; [discriminate H|].
        inversion E1. subst h'. rewrite E2. reflexivity.
    + intro r. split.
      * intro H. exists h. split; [reflexivity|].
        destruct (h t) as [result [[ | | err]|] | value]; cbn in H;
          try discriminate H.
        inversion H. reflexivity.
      * intros (h' & E1 & E2). inversion E1. subst h'. rewrite E2.
        reflexivity.
    + intros h' E1. inversion E1. subst h'.
      repeat split; intros; match goal with E : h t = _ |- _ => rewrite E end;
        reflexivity.
  - split; [reflexivity|]. split; [reflexivity|]. split; [|split].
    + split; [intros _; now left|reflexivity].
    + intro r. split; [discriminate|]. intros (h & E & _). discriminate E.
    + intros h E. discriminate E.
Qed.

Lemma Execute_outcome_witness :
  Execute example_handlers example_task = (None, None)
  /\ Execute example_handlers unknown_task = (None, Some ErrHandlerNotFound)
  /\ Execute example_handlers delegated_task = (None, Some ErrHandlerNotFound)
  /\ HasHandler example_handlers (Type_ delegated_task) = true.
Proof.
  split; [|split; [|split]].
  - apply (proj2 (proj1 (proj2 (proj2 (proj2
             (Execute_outcome example_handlers example_task)))) None)).
    exists echo_handler. split; reflexivity.
  - apply (proj1 (proj2 (Execute_outcome example_handlers unknown_task))).
    reflexivity.
  - apply (proj1 (proj2 (proj2 (proj2 (proj2
             (Execute_outcome example_handlers delegated_task))))
             delegating_handler eq_refl) None ErrHandlerNotFound).
    reflexivity.
  - reflexivity.
Defined.
